(** * C-RAG dashboard: request routing and the chat session state machine

    A shallow embedding of the TypeScript sources

      - [services/backendApi.ts]       (module [Api]),
      - [InteractiveChat.tsx]          (module [Chat]),
      - [EnhancedDashboard.tsx]        (module [Dashboard]),

    followed by the properties of the specification, one theorem each.

    Conventions of the embedding.  A JavaScript string is the list of its
    UTF-16 code units.  A JavaScript number is a binary64 float; the clock
    readings of [Date.now()] and the HTTP status are integers and are kept
    in [Z].  A [Date] is its number of milliseconds since the epoch.  An
    [async] function is a computation in the monad [Run]: it threads the
    state of the page, may throw, and reads the clock and the answers of
    the two servers from the state.  Console output is not modelled. *)

From Stdlib Require Import ZArith NArith List String Ascii Bool Lia.
From Stdlib Require Import Floats DecimalString DecimalZ DecimalPos.
Import ListNotations.

Set Warnings "-inexact-float,-register-all".

(* ================================================================== *)
(** * The JavaScript operations the sources use *)
(* ================================================================== *)

Module JS.

(** Strings as sequences of UTF-16 code units. *)
Definition jsstring : Type := list N.

(** A literal of the source text (all of them are ASCII). *)
Definition lit (s : string) : jsstring :=
  map N_of_ascii (list_ascii_of_string s).

(** The line feed written [\n] inside a template literal. *)
Definition LF : jsstring := [10%N].

(** [a === b] on strings. *)
Fixpoint streq (a b : jsstring) : bool :=
  match a, b with
  | [], [] => true
  | x :: a', y :: b' => N.eqb x y && streq a' b'
  | _, _ => false
  end.

(** A string is truthy when it is not empty. *)
Definition truthy (s : jsstring) : bool :=
  match s with [] => false | _ :: _ => true end.

(** ECMAScript WhiteSpace and LineTerminator code points: what
    [String.prototype.trim] strips. *)
Definition isWhiteSpace (c : N) : bool :=
  ((9 <=? c) && (c <=? 13) || (c =? 32) || (c =? 160) || (c =? 5760)
   || (8192 <=? c) && (c <=? 8202) || (c =? 8232) || (c =? 8233)
   || (c =? 8239) || (c =? 8287) || (c =? 12288) || (c =? 65279))%N.

Fixpoint trimStart (s : jsstring) : jsstring :=
  match s with
  | [] => []
  | c :: rest => if isWhiteSpace c then trimStart rest else s
  end.

Definition trimEnd (s : jsstring) : jsstring := rev (trimStart (rev s)).

Definition trim (s : jsstring) : jsstring := trimEnd (trimStart s).

Fixpoint startsWith (s p : jsstring) : bool :=
  match p, s with
  | [], _ => true
  | x :: p', y :: s' => N.eqb x y && startsWith s' p'
  | _ :: _, [] => false
  end.

(** [s.includes(p)] *)
Fixpoint includes (s p : jsstring) : bool :=
  startsWith s p ||
  match s with
  | [] => false
  | _ :: s' => includes s' p
  end.

(** [n.toString()] for an integral number (below 1e21 in magnitude, where
    JavaScript prints plain decimal digits). *)
Definition toString (n : Z) : jsstring :=
  lit (NilZero.string_of_int (Z.to_int n)).

(** Numbers. *)
Definition number : Type := float.

(** [0], [-0] and [NaN] are the falsy numbers. *)
Definition falsy (x : number) : bool :=
  PrimFloat.is_zero x || PrimFloat.is_nan x.

(** [x || d] where [x] may be [undefined]. *)
Definition or_else (x : option number) (d : number) : number :=
  match x with
  | None => d
  | Some v => if falsy v then d else v
  end.

(** [s || d] on strings. *)
Definition or_text (s d : jsstring) : jsstring :=
  if truthy s then s else d.

(** What a [throw] carries: an [Error] object with its message, or any
    other value. *)
Inductive Thrown : Type :=
| Error (message : jsstring)
| NotAnError.

(** JSON documents.  [JSON.stringify] is kept as the tree it prints. *)
Inductive json : Type :=
| JNull
| JBool (b : bool)
| JNumber (x : number)
| JString (s : jsstring)
| JArray (items : list json)
| JObject (members : list (string * json)).

(** A number prints as itself when finite and as [null] otherwise. *)
Definition JSON_number (x : number) : json :=
  if PrimFloat.is_finite x then JNumber x else JNull.

(** An object literal prints without the properties that are [undefined]. *)
Fixpoint defined (props : list (string * option json)) : list (string * json) :=
  match props with
  | [] => []
  | (k, Some v) :: rest => (k, v) :: defined rest
  | (_, None) :: rest => defined rest
  end.

Definition JSON_object (props : list (string * option json)) : json :=
  JObject (defined props).

(** The member of an object under a name. *)
Fixpoint lookup (k : string) (members : list (string * json)) : option json :=
  match members with
  | [] => None
  | (k', v) :: rest => if String.eqb k k' then Some v else lookup k rest
  end.

Definition member (k : string) (doc : json) : option json :=
  match doc with
  | JObject members => lookup k members
  | _ => None
  end.

End JS.

Import JS.

(* ================================================================== *)
(** * The interfaces of [backendApi.ts], [InteractiveChat.tsx] and
      [EnhancedDashboard.tsx] *)
(* ================================================================== *)

Module CodeChunk.
Record t : Type := {
  content : jsstring;
  source : jsstring;
  start_line : number;
  type : jsstring;
  distance : option number;
  function_name : option jsstring;
  class_name : option jsstring;
  struct_name : option jsstring
}.
End CodeChunk.

Module DebugInfo.
Record t : Type := {
  retrieved_chunk_count : number;
  query_top_k : number;
  query_similarity_threshold : number;
  llm_temperature : number
}.
End DebugInfo.

Module QueryResponse.
Record t : Type := {
  answer : jsstring;
  retrieved_context : list CodeChunk.t;
  debug_info : DebugInfo.t
}.
End QueryResponse.

Module QueryRequest.
Record t : Type := {
  query : jsstring;
  temperature : option number;
  top_k : option number;
  similarity_threshold : option number;
  filter_type : option jsstring
}.
End QueryRequest.

Module DiagramPayload.
Record t : Type := {
  files : option (list (jsstring * jsstring * jsstring));
  chunk : option CodeChunk.t;
  retrieved_context : option (list CodeChunk.t)
}.
End DiagramPayload.

Module DiagramResponse.
Record t : Type := { mermaid_syntax : jsstring }.
End DiagramResponse.

Module FileData.
Record t : Type := {
  name : jsstring;
  content : jsstring;
  type : jsstring
}.
End FileData.

Inductive Role : Type := user | bot.

Module ChatMessage.
Record t : Type := {
  id : jsstring;
  type : Role;
  content : jsstring;
  timestamp : Z;
  response : option QueryResponse.t;
  isLoading : option bool
}.
End ChatMessage.

Module ChatSettings.
Record t : Type := {
  temperature : number;
  top_k : number;
  similarity_threshold : number
}.
End ChatSettings.

(** ['api' | 'model']: the primary backend and the local model backend. *)
Inductive Mode : Type := api | model.

(* ================================================================== *)
(** * The page: React state, the browser, the two servers *)
(* ================================================================== *)

Module Page.

(** The state hooks of [EnhancedDashboard] and of [InteractiveChat]. *)
Record State : Type := {
  hasBackendFiles : bool;
  localFiles : list FileData.t;
  loading : bool;
  chatMessages : list ChatMessage.t;
  backendMode : Mode;
  chatSettings : ChatSettings.t;
  queryHistory : list (jsstring * QueryResponse.t * Z);
  lastRetrievedContext : list CodeChunk.t;
  inputValue : jsstring;
  isLoading : bool
}.

(** An entry of [localStorage] that the code reads with [JSON.parse]: either
    the text [JSON.stringify] wrote for a value, or some other text, on
    which [JSON.parse] throws.  (A text that is JSON of another shape is
    outside this typed model, and so is what the JSON text does to a
    number: it writes [-0] as [0] and [NaN] or an infinity as [null].) *)
Inductive Item (A : Type) : Type :=
| Encoded (value : A)
| Garbled (raw : jsstring).
Arguments Encoded {A} value.
Arguments Garbled {A} raw.

(** [localStorage]; [None] is what [getItem] returns as [null]. *)
Record Storage : Type := {
  item_chatMessages : option (Item (list ChatMessage.t));
  item_chatSettings : option (Item ChatSettings.t);
  item_uploadedFiles : option (Item (list FileData.t))
}.

(** The paths the client requests, each with the type of the JSON it
    expects back. *)
Inductive Endpoint : Type -> Type :=
| health : Endpoint jsstring
| list_codebase : Endpoint (list FileData.t)
| clear_codebase : Endpoint jsstring
| ask : Endpoint QueryResponse.t
| ask_model : Endpoint QueryResponse.t
| generate_module_diagram : Endpoint DiagramResponse.t
| generate_chunk_diagram : Endpoint DiagramResponse.t.

Definition path {A} (e : Endpoint A) : jsstring :=
  match e with
  | health => lit "/health"
  | list_codebase => lit "/list_codebase"
  | clear_codebase => lit "/clear_codebase"
  | ask => lit "/ask/"
  | ask_model => lit "/ask_model"
  | generate_module_diagram => lit "/generate_module_diagram"
  | generate_chunk_diagram => lit "/generate_chunk_diagram"
  end.

(** What [fetch] is called with. *)
Record HttpRequest : Type := {
  url : jsstring;
  method : option string;
  headers : list (string * string);
  body : option json
}.

(** What [fetch] comes back with: the promise rejects, or a response
    arrives with its status, its body as [text()] reads it and as [json()]
    reads it ([inl] when the body is not JSON). *)
Inductive Reply (A : Type) : Type :=
| Rejects (reason : Thrown)
| Responds (status : Z) (text : jsstring) (decoded : Thrown + A).
Arguments Rejects {A} reason.
Arguments Responds {A} status text decoded.

(** What lies outside the components.  [clock] and [answers] are what the
    world will say: the k-th reading of the clock and the reply to the
    k-th request.  The rest records what the page did: the readings
    taken, the requests sent, the alerts shown, the transcripts handed to
    [setChatMessages]. *)
Record Outside : Type := {
  clock : nat -> Z;
  ticks : nat;
  answers : forall A, Endpoint A -> nat -> Reply A;
  sent : list HttpRequest;
  alerts : list jsstring;
  transcripts : list (list ChatMessage.t);
  localStorage : Storage
}.

Record World : Type := {
  state : State;
  outside : Outside
}.

(** ** Computations *)

Inductive Outcome (A : Type) : Type :=
| Returned (value : A)
| Threw (error : Thrown).
Arguments Returned {A} value.
Arguments Threw {A} error.

Definition Run (A : Type) : Type := World -> Outcome A * World.

Definition ret {A} (a : A) : Run A := fun w => (Returned a, w).

Definition bind {A B} (m : Run A) (k : A -> Run B) : Run B :=
  fun w =>
    match m w with
    | (Returned a, w') => k a w'
    | (Threw e, w') => (Threw e, w')
    end.

Definition throw {A} (e : Thrown) : Run A := fun w => (Threw e, w).

(** [try { body } catch (error) { handler }] *)
Definition try_catch {A} (body : Run A) (handler : Thrown -> Run A) : Run A :=
  fun w =>
    match body w with
    | (Returned a, w') => (Returned a, w')
    | (Threw e, w') => handler e w'
    end.

(** [try { body } finally { cleanup }] *)
Definition try_finally {A} (body : Run A) (cleanup : Run unit) : Run A :=
  fun w =>
    match body w with
    | (result, w') =>
        match cleanup w' with
        | (Returned _, w'') => (result, w'')
        | (Threw e, w'') => (Threw e, w'')
        end
    end.

Definition world_of {A} (r : Outcome A * World) : World := snd r.
Definition outcome_of {A} (r : Outcome A * World) : Outcome A := fst r.

End Page.

Import Page.

Declare Scope run_scope.
Delimit Scope run_scope with run.
Notation "x <- m ;; k" := (bind m (fun x => k))
  (at level 61, m at next level, right associativity) : run_scope.
Notation "m ;; k" := (bind m (fun _ => k))
  (at level 61, right associativity) : run_scope.
Open Scope run_scope.

(* ================================================================== *)
(** * State setters and browser primitives *)
(* ================================================================== *)

Module React.

Definition update (f : State -> State) : Run unit :=
  fun w => (Returned tt, {| state := f (state w); outside := outside w |}).

Definition setHasBackendFiles (b : bool) : Run unit :=
  update (fun s =>
    {| hasBackendFiles := b; localFiles := localFiles s; loading := loading s;
       chatMessages := chatMessages s; backendMode := backendMode s;
       chatSettings := chatSettings s; queryHistory := queryHistory s;
       lastRetrievedContext := lastRetrievedContext s;
       inputValue := inputValue s; isLoading := isLoading s |}).

Definition setLocalFiles (l : list FileData.t) : Run unit :=
  update (fun s =>
    {| hasBackendFiles := hasBackendFiles s; localFiles := l; loading := loading s;
       chatMessages := chatMessages s; backendMode := backendMode s;
       chatSettings := chatSettings s; queryHistory := queryHistory s;
       lastRetrievedContext := lastRetrievedContext s;
       inputValue := inputValue s; isLoading := isLoading s |}).

Definition setLoading (b : bool) : Run unit :=
  update (fun s =>
    {| hasBackendFiles := hasBackendFiles s; localFiles := localFiles s; loading := b;
       chatMessages := chatMessages s; backendMode := backendMode s;
       chatSettings := chatSettings s; queryHistory := queryHistory s;
       lastRetrievedContext := lastRetrievedContext s;
       inputValue := inputValue s; isLoading := isLoading s |}).

(** [setChatMessages] replaces the whole transcript; every call is
    recorded in [transcripts]. *)
Definition setChatMessages (l : list ChatMessage.t) : Run unit :=
  fun w =>
    let s := state w in
    let o := outside w in
    (Returned tt,
     {| state :=
          {| hasBackendFiles := hasBackendFiles s; localFiles := localFiles s;
             loading := loading s; chatMessages := l; backendMode := backendMode s;
             chatSettings := chatSettings s; queryHistory := queryHistory s;
             lastRetrievedContext := lastRetrievedContext s;
             inputValue := inputValue s; isLoading := isLoading s |};
        outside :=
          {| clock := clock o; ticks := ticks o; answers := answers o;
             sent := sent o; alerts := alerts o;
             transcripts := transcripts o ++ [l];
             localStorage := localStorage o |} |}).

Definition setChatSettings (c : ChatSettings.t) : Run unit :=
  update (fun s =>
    {| hasBackendFiles := hasBackendFiles s; localFiles := localFiles s;
       loading := loading s; chatMessages := chatMessages s;
       backendMode := backendMode s; chatSettings := c;
       queryHistory := queryHistory s;
       lastRetrievedContext := lastRetrievedContext s;
       inputValue := inputValue s; isLoading := isLoading s |}).

(** [setQueryHistory(prev => f(prev))] *)
Definition setQueryHistory
  (f : list (jsstring * QueryResponse.t * Z) -> list (jsstring * QueryResponse.t * Z))
  : Run unit :=
  update (fun s =>
    {| hasBackendFiles := hasBackendFiles s; localFiles := localFiles s;
       loading := loading s; chatMessages := chatMessages s;
       backendMode := backendMode s; chatSettings := chatSettings s;
       queryHistory := f (queryHistory s);
       lastRetrievedContext := lastRetrievedContext s;
       inputValue := inputValue s; isLoading := isLoading s |}).

Definition setLastRetrievedContext (l : list CodeChunk.t) : Run unit :=
  update (fun s =>
    {| hasBackendFiles := hasBackendFiles s; localFiles := localFiles s;
       loading := loading s; chatMessages := chatMessages s;
       backendMode := backendMode s; chatSettings := chatSettings s;
       queryHistory := queryHistory s; lastRetrievedContext := l;
       inputValue := inputValue s; isLoading := isLoading s |}).

Definition setInputValue (v : jsstring) : Run unit :=
  update (fun s =>
    {| hasBackendFiles := hasBackendFiles s; localFiles := localFiles s;
       loading := loading s; chatMessages := chatMessages s;
       backendMode := backendMode s; chatSettings := chatSettings s;
       queryHistory := queryHistory s;
       lastRetrievedContext := lastRetrievedContext s;
       inputValue := v; isLoading := isLoading s |}).

Definition setIsLoading (b : bool) : Run unit :=
  update (fun s =>
    {| hasBackendFiles := hasBackendFiles s; localFiles := localFiles s;
       loading := loading s; chatMessages := chatMessages s;
       backendMode := backendMode s; chatSettings := chatSettings s;
       queryHistory := queryHistory s;
       lastRetrievedContext := lastRetrievedContext s;
       inputValue := inputValue s; isLoading := b |}).

End React.

Module Browser.

Definition toward (f : Outside -> Outside) : Run unit :=
  fun w => (Returned tt, {| state := state w; outside := f (outside w) |}).

(** [Date.now()], and the instant of [new Date()]: the next reading of
    the clock. *)
Definition Date_now : Run Z :=
  fun w =>
    let o := outside w in
    (Returned (clock o (ticks o)),
     {| state := state w;
        outside :=
          {| clock := clock o; ticks := S (ticks o); answers := answers o;
             sent := sent o; alerts := alerts o; transcripts := transcripts o;
             localStorage := localStorage o |} |}).

(** [await fetch(url, init)] against the endpoint [e]: the request is
    recorded, and the reply is the one the world holds for it. *)
Definition fetch {A} (e : Endpoint A) (req : HttpRequest)
  : Run (Z * jsstring * (Thrown + A)) :=
  fun w =>
    let o := outside w in
    let w' :=
      {| state := state w;
         outside :=
           {| clock := clock o; ticks := ticks o; answers := answers o;
              sent := sent o ++ [req]; alerts := alerts o;
              transcripts := transcripts o;
              localStorage := localStorage o |} |} in
    match answers o A e (List.length (sent o)) with
    | Rejects reason => (Threw reason, w')
    | Responds status text decoded => (Returned (status, text, decoded), w')
    end.

(** [response.ok] *)
Definition ok (status : Z) : bool := (200 <=? status)%Z && (status <=? 299)%Z.

Definition alert (message : jsstring) : Run unit :=
  toward (fun o =>
    {| clock := clock o; ticks := ticks o; answers := answers o;
       sent := sent o; alerts := alerts o ++ [message];
       transcripts := transcripts o; localStorage := localStorage o |}).

Definition setStorage (f : Storage -> Storage) : Run unit :=
  toward (fun o =>
    {| clock := clock o; ticks := ticks o; answers := answers o;
       sent := sent o; alerts := alerts o; transcripts := transcripts o;
       localStorage := f (localStorage o) |}).

(** The keys of [localStorage] the dashboard uses, with what they hold. *)
Inductive Key : Type -> Type :=
| key_chatMessages : Key (list ChatMessage.t)
| key_chatSettings : Key ChatSettings.t
| key_uploadedFiles : Key (list FileData.t).

Definition read {A} (k : Key A) (st : Storage) : option (Item A) :=
  match k in Key T return option (Item T) with
  | key_chatMessages => item_chatMessages st
  | key_chatSettings => item_chatSettings st
  | key_uploadedFiles => item_uploadedFiles st
  end.

Definition write {A} (k : Key A) : option (Item A) -> Storage -> Storage :=
  match k in Key T return option (Item T) -> Storage -> Storage with
  | key_chatMessages => fun v st =>
      {| item_chatMessages := v; item_chatSettings := item_chatSettings st;
         item_uploadedFiles := item_uploadedFiles st |}
  | key_chatSettings => fun v st =>
      {| item_chatMessages := item_chatMessages st; item_chatSettings := v;
         item_uploadedFiles := item_uploadedFiles st |}
  | key_uploadedFiles => fun v st =>
      {| item_chatMessages := item_chatMessages st;
         item_chatSettings := item_chatSettings st; item_uploadedFiles := v |}
  end.

Definition getItem {A} (k : Key A) : Run (option (Item A)) :=
  fun w => (Returned (read k (localStorage (outside w))), w).

Definition setItem {A} (k : Key A) (v : Item A) : Run unit :=
  setStorage (write k (Some v)).

Definition removeItem {A} (k : Key A) : Run unit :=
  setStorage (write k None).

(** [if (saved)]: [null] and the empty string are falsy. *)
Definition present {A} (saved : option (Item A)) : option (Item A) :=
  match saved with
  | None => None
  | Some (Garbled []) => None
  | Some i => Some i
  end.

Definition JSON_stringify {A} (v : A) : Item A := Encoded v.

(** [JSON.parse(text)] throws a [SyntaxError] on text that is not JSON. *)
Definition JSON_parse {A} (text : Item A) : Run A :=
  match text with
  | Encoded v => ret v
  | Garbled _ => throw (Error (lit "Unexpected token in JSON"))
  end.

End Browser.

Import React Browser.

(* ================================================================== *)
(** * [services/backendApi.ts] *)
(* ================================================================== *)

Module Api.

Definition API_BASE_URL : jsstring := lit "http://localhost:8000".
Definition LOCAL_MODEL_API_BASE_URL : jsstring := lit "http://localhost:8001".

Definition getBaseUrl (mode : Mode) : jsstring :=
  match mode with
  | api => API_BASE_URL
  | model => LOCAL_MODEL_API_BASE_URL
  end.

(** The [RequestInit] options the callers pass (none passes headers). *)
Record RequestInit : Type := {
  init_method : option string;
  init_body : option json
}.

Definition no_options : RequestInit :=
  {| init_method := None; init_body := None |}.

Definition request {A} (endpoint : Endpoint A) (options : RequestInit)
  (mode : Mode) : Run A :=
  let baseUrl := getBaseUrl mode in
  response <- fetch endpoint
    {| url := baseUrl ++ path endpoint;
       method := init_method options;
       headers := [("Content-Type", "application/json")%string];
       body := init_body options |} ;;
  let '(status, text, decoded) := response in
  if negb (ok status) then
    let errorData := text in
    throw (Error (lit "HTTP " ++ toString status ++ lit ": " ++ errorData))
  else
    match decoded with
    | inl e => throw e
    | inr value => ret value
    end.

Definition checkHealth : Run jsstring :=
  request health no_options api.

Definition listCodebaseFiles : Run (list FileData.t) :=
  request list_codebase no_options api.

Definition clearCodebase : Run jsstring :=
  request clear_codebase
    {| init_method := Some "POST"%string; init_body := None |} api.

Definition askQuestion (request_ : QueryRequest.t) : Run QueryResponse.t :=
  request ask
    {| init_method := Some "POST"%string;
       init_body := Some (JSON_object
         [ ("query", Some (JString (QueryRequest.query request_)));
           ("temperature",
             Some (JSON_number (or_else (QueryRequest.temperature request_) 0.2%float)));
           ("top_k",
             Some (JSON_number (or_else (QueryRequest.top_k request_) 5%float)));
           ("similarity_threshold",
             Some (JSON_number
                     (or_else (QueryRequest.similarity_threshold request_) 0.7%float)));
           ("filter_type",
             option_map JString (QueryRequest.filter_type request_)) ]%string) |}
    api.

Definition askModelQuestion (request_ : QueryRequest.t) : Run QueryResponse.t :=
  request ask_model
    {| init_method := Some "POST"%string;
       init_body := Some (JSON_object
         [ ("question", Some (JString (QueryRequest.query request_)));
           ("temperature",
             Some (JSON_number (or_else (QueryRequest.temperature request_) 0.2%float)));
           ("top_k",
             Some (JSON_number (or_else (QueryRequest.top_k request_) 5%float)));
           ("similarity_threshold",
             Some (JSON_number
                     (or_else (QueryRequest.similarity_threshold request_) 0.7%float)))
         ]%string) |}
    model.

(** [JSON.stringify] of the interfaces a diagram payload carries. *)
Definition chunk_json (c : CodeChunk.t) : json :=
  JSON_object
    [ ("content", Some (JString (CodeChunk.content c)));
      ("source", Some (JString (CodeChunk.source c)));
      ("start_line", Some (JSON_number (CodeChunk.start_line c)));
      ("type", Some (JString (CodeChunk.type c)));
      ("distance", option_map JSON_number (CodeChunk.distance c));
      ("function_name", option_map JString (CodeChunk.function_name c));
      ("class_name", option_map JString (CodeChunk.class_name c));
      ("struct_name", option_map JString (CodeChunk.struct_name c)) ]%string.

Definition file_json (f : jsstring * jsstring * jsstring) : json :=
  let '(name, content, type) := f in
  JSON_object
    [ ("name", Some (JString name));
      ("content", Some (JString content));
      ("type", Some (JString type)) ]%string.

Definition payload_json (payload : DiagramPayload.t) : json :=
  JSON_object
    [ ("files",
        option_map (fun l => JArray (map file_json l)) (DiagramPayload.files payload));
      ("chunk", option_map chunk_json (DiagramPayload.chunk payload));
      ("retrieved_context",
        option_map (fun l => JArray (map chunk_json l))
          (DiagramPayload.retrieved_context payload)) ]%string.

Definition generateModuleDiagram (payload : DiagramPayload.t)
  : Run DiagramResponse.t :=
  request generate_module_diagram
    {| init_method := Some "POST"%string;
       init_body := Some (payload_json payload) |}
    model.

Definition generateChunkDiagram (payload : DiagramPayload.t)
  : Run DiagramResponse.t :=
  request generate_chunk_diagram
    {| init_method := Some "POST"%string;
       init_body := Some (payload_json payload) |}
    model.

End Api.

(* ================================================================== *)
(** * [InteractiveChat.tsx] *)
(* ================================================================== *)

Module Chat.

Record Props : Type := {
  hasFiles : bool;
  backendMode : Mode;
  messages : list ChatMessage.t;
  setMessages : list ChatMessage.t -> Run unit;
  settings : ChatSettings.t;
  setSettings : ChatSettings.t -> Run unit;
  onQueryComplete : option (jsstring -> QueryResponse.t -> Z -> Run unit)
}.

(** [{ ...msg, content, response, isLoading: false }] *)
Definition resolved (msg : ChatMessage.t) (content : jsstring)
  (response : QueryResponse.t) : ChatMessage.t :=
  {| ChatMessage.id := ChatMessage.id msg;
     ChatMessage.type := ChatMessage.type msg;
     ChatMessage.content := content;
     ChatMessage.timestamp := ChatMessage.timestamp msg;
     ChatMessage.response := Some response;
     ChatMessage.isLoading := Some false |}.

(** [{ ...msg, content, isLoading: false }] *)
Definition failed (msg : ChatMessage.t) (content : jsstring) : ChatMessage.t :=
  {| ChatMessage.id := ChatMessage.id msg;
     ChatMessage.type := ChatMessage.type msg;
     ChatMessage.content := content;
     ChatMessage.timestamp := ChatMessage.timestamp msg;
     ChatMessage.response := ChatMessage.response msg;
     ChatMessage.isLoading := Some false |}.

(** [error instanceof Error ? error.message : 'Failed to get response'] *)
Definition message_of (error : Thrown) : jsstring :=
  match error with
  | Error message => message
  | NotAnError => lit "Failed to get response"
  end.

(** The handler closes over the props and the state of the render it was
    created in: [inputValue] and [isLoading] are those values. *)
Definition handleSendMessage (props : Props) (inputValue : jsstring)
  (isLoading : bool) : Run unit :=
  if negb (truthy (trim inputValue)) || isLoading || negb (hasFiles props)
  then ret tt
  else
    now_user <- Date_now ;;
    date_user <- Date_now ;;
    let userMessage :=
      {| ChatMessage.id := toString now_user;
         ChatMessage.type := user;
         ChatMessage.content := trim inputValue;
         ChatMessage.timestamp := date_user;
         ChatMessage.response := None;
         ChatMessage.isLoading := None |} in
    now_bot <- Date_now ;;
    date_bot <- Date_now ;;
    let botMessage :=
      {| ChatMessage.id := toString (now_bot + 1);
         ChatMessage.type := bot;
         ChatMessage.content := [];
         ChatMessage.timestamp := date_bot;
         ChatMessage.response := None;
         ChatMessage.isLoading := Some true |} in
    let newMessages := messages props ++ [userMessage; botMessage] in
    setMessages props newMessages ;;
    setInputValue [] ;;
    setIsLoading true ;;
    try_finally
      (try_catch
         (response <-
            match backendMode props with
            | api =>
                Api.askQuestion
                  {| QueryRequest.query := ChatMessage.content userMessage;
                     QueryRequest.temperature :=
                       Some (ChatSettings.temperature (settings props));
                     QueryRequest.top_k :=
                       Some (ChatSettings.top_k (settings props));
                     QueryRequest.similarity_threshold :=
                       Some (ChatSettings.similarity_threshold (settings props));
                     QueryRequest.filter_type := None |}
            | model =>
                Api.askModelQuestion
                  {| QueryRequest.query := ChatMessage.content userMessage;
                     QueryRequest.temperature :=
                       Some (ChatSettings.temperature (settings props));
                     QueryRequest.top_k :=
                       Some (ChatSettings.top_k (settings props));
                     QueryRequest.similarity_threshold :=
                       Some (ChatSettings.similarity_threshold (settings props));
                     QueryRequest.filter_type := None |}
            end ;;
          let updatedMessages :=
            map (fun msg =>
                   if streq (ChatMessage.id msg) (ChatMessage.id botMessage)
                   then resolved msg
                          (or_text (QueryResponse.answer response)
                                   (lit "No response received"))
                          response
                   else msg)
                newMessages in
          setMessages props updatedMessages ;;
          match onQueryComplete props with
          | Some notify =>
              date_done <- Date_now ;;
              notify (ChatMessage.content userMessage) response date_done
          | None => ret tt
          end)
         (fun error =>
            setMessages props
              (map (fun msg =>
                      if streq (ChatMessage.id msg) (ChatMessage.id botMessage)
                      then failed msg (lit "Error: " ++ message_of error)
                      else msg)
                   newMessages)))
      (setIsLoading false).

(** [chunk.function_name] as a condition: defined and not empty. *)
Definition named (name : option jsstring) : option jsstring :=
  match name with
  | Some n => if truthy n then Some n else None
  | None => None
  end.

Definition flowchart (function_name : jsstring) : jsstring :=
  lit "graph TD" ++ LF ++
  lit "    A[Start " ++ function_name ++ lit "] --> B{Process?}" ++ LF ++
  lit "    B -- Yes --> C[Do Something]" ++ LF ++
  lit "    C --> D[End]" ++ LF ++
  lit "    B -- No --> D".

Definition classDiagram : jsstring :=
  lit "classDiagram" ++ LF ++
  lit "    class MyClass {" ++ LF ++
  lit "        + myMethod()" ++ LF ++
  lit "        - myField" ++ LF ++
  lit "    }" ++ LF ++
  lit "    MyClass <|-- AnotherClass" ++ LF ++
  lit "    MyClass : +memberVariable" ++ LF ++
  lit "    MyClass : +memberFunction()".

Definition genericDiagram : jsstring :=
  lit "graph TD" ++ LF ++
  lit "    A[Code Chunk] --> B[Content Analysis]" ++ LF ++
  lit "    B --> C[No specific structure found]".

Definition errorDiagram (subject : jsstring) : jsstring :=
  lit "graph TD" ++ LF ++
  lit "    A[Error generating diagram for " ++ subject ++ lit "]" ++ LF ++
  lit "    A --> B[Check console for details]".

Definition generateMermaidForChunk (props : Props) (chunk : CodeChunk.t)
  : Run jsstring :=
  match backendMode props with
  | model =>
      try_catch
        (let payload :=
           {| DiagramPayload.files := None;
              DiagramPayload.chunk := Some chunk;
              DiagramPayload.retrieved_context := None |} in
         response <- Api.generateChunkDiagram payload ;;
         ret (DiagramResponse.mermaid_syntax response))
        (fun error =>
           ret (errorDiagram
                  match named (CodeChunk.function_name chunk) with
                  | Some n => n
                  | None => CodeChunk.source chunk
                  end))
  | api =>
      match named (CodeChunk.function_name chunk) with
      | Some function_name => ret (flowchart function_name)
      | None =>
          if streq (CodeChunk.type chunk) (lit "class")
             || includes (CodeChunk.content chunk) (lit "class ")
             || includes (CodeChunk.content chunk) (lit "struct ")
          then ret classDiagram
          else ret genericDiagram
      end
  end.

(** [handleSendMessage] up to its [try]: the guard, the two messages, and
    the three setters.  [None] when the guard stops the submit. *)
Definition beginSendMessage (props : Props) (inputValue : jsstring)
  (isLoading : bool) : Run (option (ChatMessage.t * ChatMessage.t)) :=
  if negb (truthy (trim inputValue)) || isLoading || negb (hasFiles props)
  then ret None
  else
    now_user <- Date_now ;;
    date_user <- Date_now ;;
    let userMessage :=
      {| ChatMessage.id := toString now_user;
         ChatMessage.type := user;
         ChatMessage.content := trim inputValue;
         ChatMessage.timestamp := date_user;
         ChatMessage.response := None;
         ChatMessage.isLoading := None |} in
    now_bot <- Date_now ;;
    date_bot <- Date_now ;;
    let botMessage :=
      {| ChatMessage.id := toString (now_bot + 1);
         ChatMessage.type := bot;
         ChatMessage.content := [];
         ChatMessage.timestamp := date_bot;
         ChatMessage.response := None;
         ChatMessage.isLoading := Some true |} in
    let newMessages := messages props ++ [userMessage; botMessage] in
    setMessages props newMessages ;;
    setInputValue [] ;;
    setIsLoading true ;;
    ret (Some (userMessage, botMessage)).

(** [handleSendMessage] from its [try] on: the ask, the resolution, the
    [finally]. *)
Definition finishSendMessage (props : Props)
  (userMessage botMessage : ChatMessage.t) : Run unit :=
  let newMessages := messages props ++ [userMessage; botMessage] in
  try_finally
    (try_catch
       (response <-
          match backendMode props with
          | api =>
              Api.askQuestion
                {| QueryRequest.query := ChatMessage.content userMessage;
                   QueryRequest.temperature :=
                     Some (ChatSettings.temperature (settings props));
                   QueryRequest.top_k :=
                     Some (ChatSettings.top_k (settings props));
                   QueryRequest.similarity_threshold :=
                     Some (ChatSettings.similarity_threshold (settings props));
                   QueryRequest.filter_type := None |}
          | model =>
              Api.askModelQuestion
                {| QueryRequest.query := ChatMessage.content userMessage;
                   QueryRequest.temperature :=
                     Some (ChatSettings.temperature (settings props));
                   QueryRequest.top_k :=
                     Some (ChatSettings.top_k (settings props));
                   QueryRequest.similarity_threshold :=
                     Some (ChatSettings.similarity_threshold (settings props));
                   QueryRequest.filter_type := None |}
          end ;;
        let updatedMessages :=
          map (fun msg =>
                 if streq (ChatMessage.id msg) (ChatMessage.id botMessage)
                 then resolved msg
                        (or_text (QueryResponse.answer response)
                                 (lit "No response received"))
                        response
                 else msg)
              newMessages in
        setMessages props updatedMessages ;;
        match onQueryComplete props with
        | Some notify =>
            date_done <- Date_now ;;
            notify (ChatMessage.content userMessage) response date_done
        | None => ret tt
        end)
       (fun error =>
          setMessages props
            (map (fun msg =>
                    if streq (ChatMessage.id msg) (ChatMessage.id botMessage)
                    then failed msg (lit "Error: " ++ message_of error)
                    else msg)
                 newMessages)))
    (setIsLoading false).

(** A keyboard event, as far as [handleKeyPress] looks at it. *)
Record KeyboardEvent : Type := {
  key : jsstring;
  shiftKey : bool
}.

(** [handleKeyPress]: the result tells whether [e.preventDefault()] was
    called.  [handleSendMessage()] is called without [await]: what it
    throws is not thrown to the caller. *)
Definition handleKeyPress (props : Props) (inputValue : jsstring)
  (isLoading : bool) (e : KeyboardEvent) : Run bool :=
  if streq (key e) (lit "Enter") && negb (shiftKey e)
  then
    fun w =>
      (Returned true, world_of (handleSendMessage props inputValue isLoading w))
  else ret false.

(** The condition under which [renderCodeChunk] renders the
    [View Diagram] button. *)
Definition showsDiagramButton (chunk : CodeChunk.t) : bool :=
  match named (CodeChunk.function_name chunk) with
  | Some _ => true
  | None =>
      streq (CodeChunk.type chunk) (lit "class")
      || includes (CodeChunk.content chunk) (lit "class ")
      || includes (CodeChunk.content chunk) (lit "struct ")
  end.

End Chat.

(* ================================================================== *)
(** * [EnhancedDashboard.tsx] *)
(* ================================================================== *)

Module Dashboard.

(** The initial value of the [chatSettings] hook. *)
Definition defaultSettings : ChatSettings.t :=
  {| ChatSettings.temperature := 0.2%float;
     ChatSettings.top_k := 5%float;
     ChatSettings.similarity_threshold := 0.7%float |}.

(** The initial values of the state hooks; [mode] is what the
    [backendMode] hook reads from [localStorage], ['api'] by default. *)
Definition initialState (mode : Mode) : State :=
  {| hasBackendFiles := false;
     localFiles := [];
     loading := true;
     chatMessages := [];
     backendMode := mode;
     chatSettings := defaultSettings;
     queryHistory := [];
     lastRetrievedContext := [];
     inputValue := [];
     isLoading := false |}.



(** The two effects that save the transcript and the settings. *)
Definition persistChatMessages : Run unit :=
  fun w =>
    setItem key_chatMessages (JSON_stringify (chatMessages (state w))) w.

Definition persistChatSettings : Run unit :=
  fun w =>
    setItem key_chatSettings (JSON_stringify (chatSettings (state w))) w.

Definition checkLocalFiles : Run unit :=
  try_finally
    (try_catch
       (backendFiles <- Api.listCodebaseFiles ;;
        setLocalFiles backendFiles ;;
        setHasBackendFiles (0 <? List.length backendFiles) ;;
        setItem key_uploadedFiles (JSON_stringify backendFiles))
       (fun error =>
          savedFiles <- getItem key_uploadedFiles ;;
          match present savedFiles with
          | Some text =>
              parsedFiles <- JSON_parse text ;;
              setLocalFiles parsedFiles ;;
              setHasBackendFiles (0 <? List.length parsedFiles)
          | None => ret tt
          end))
    (setLoading false).

(** [files] is not looked at: the upload itself is done by the caller. *)
Definition handleBackendFilesUploaded {File : Type} (files : list File)
  : Run unit :=
  checkLocalFiles ;;
  setHasBackendFiles true.

Definition handleClearBackendFiles : Run unit :=
  try_catch
    (Api.clearCodebase ;;
     setHasBackendFiles false ;;
     setLocalFiles [] ;;
     setChatMessages [] ;;
     removeItem key_uploadedFiles)
    (fun error =>
       alert (lit "Failed to clear files. Please check backend connection.")).

Definition handleUpdateChatMessages (newMessages : list ChatMessage.t)
  : Run unit :=
  setChatMessages newMessages.

Definition handleUpdateChatSettings (newSettings : ChatSettings.t)
  : Run unit :=
  setChatSettings newSettings.

(** The [onQueryComplete] the dashboard hands to the chat.  The test
    [if (response?.retrieved_context)] always passes: the field is an
    array, and an array is truthy. *)
Definition recordQuery (query : jsstring) (response : QueryResponse.t)
  (timestamp : Z) : Run unit :=
  setQueryHistory (fun prev => prev ++ [(query, response, timestamp)]) ;;
  setLastRetrievedContext (QueryResponse.retrieved_context response).

(** The props of [<InteractiveChat ... />] in a render with state [s]. *)
Definition chatProps (s : State) : Chat.Props :=
  {| Chat.hasFiles := hasBackendFiles s;
     Chat.backendMode := backendMode s;
     Chat.messages := chatMessages s;
     Chat.setMessages := handleUpdateChatMessages;
     Chat.settings := chatSettings s;
     Chat.setSettings := handleUpdateChatSettings;
     Chat.onQueryComplete := Some recordQuery |}.

(** A press on send, handled by the handler of the current render and run
    to its end. *)
Definition send : Run unit :=
  fun w =>
    Chat.handleSendMessage (chatProps (state w))
      (inputValue (state w)) (isLoading (state w)) w.

(** The user types [text] and sends it, and the save effects follow. *)
Definition submit (text : jsstring) : Run unit :=
  setInputValue text ;;
  try_finally send (persistChatMessages ;; persistChatSettings).

(** Submits one after the other, each waiting for the one before. *)
Fixpoint submits (texts : list jsstring) : Run unit :=
  match texts with
  | [] => ret tt
  | text :: rest => try_catch (submit text) (fun _ => ret tt) ;; submits rest
  end.

(** A chunk diagram asked for in the current render. *)
Definition viewChunkDiagram (chunk : CodeChunk.t) : Run jsstring :=
  fun w => Chat.generateMermaidForChunk (chatProps (state w)) chunk w.

(** The page as it starts: the initial state before a given outside. *)
Definition start (mode : Mode) (o : Outside) : World :=
  {| state := initialState mode; outside := o |}.

End Dashboard.

(* ================================================================== *)
(** * Notions used to state the properties *)
(* ================================================================== *)

Module Spec.

(** Empty or made of white space only. *)
Definition blank (s : jsstring) : bool := forallb isWhiteSpace s.

(** [p] occurs in [s]. *)
Definition contains (s p : jsstring) : Prop :=
  exists pre post, s = pre ++ p ++ post.

(** The k-th reading of the clock from now on. *)
Definition reading (w : World) (k : nat) : Z :=
  clock (outside w) (k + ticks (outside w)).

(** The reply the next request to [e] will get. *)
Definition nextReply {A} (e : Endpoint A) (w : World) : Reply A :=
  answers (outside w) A e (List.length (sent (outside w))).

(** How a reply ends a call of the client: a value, or the failure
    raised (transport failure, non-2xx status, undecodable body). *)
Definition verdict {A} (r : Reply A) : Outcome A :=
  match r with
  | Rejects reason => Threw reason
  | Responds status text decoded =>
      if ok status then
        match decoded with
        | inl e => Threw e
        | inr value => Returned value
        end
      else Threw (Error (lit "HTTP " ++ toString status ++ lit ": " ++ text))
  end.

(** How the ask of a submit made in [w] will end. *)
Definition askVerdict (w : World) : Outcome QueryResponse.t :=
  match backendMode (state w) with
  | api => verdict (nextReply ask w)
  | model => verdict (nextReply ask_model w)
  end.

(** A submit in [w] passes the guard. *)
Definition accepted (w : World) : Prop :=
  blank (inputValue (state w)) = false /\
  isLoading (state w) = false /\
  hasBackendFiles (state w) = true.

Definition question (w : World) : jsstring := trim (inputValue (state w)).

(** The pair of messages a submit in [w] creates. *)
Definition userMessage (w : World) : ChatMessage.t :=
  {| ChatMessage.id := toString (reading w 0);
     ChatMessage.type := user;
     ChatMessage.content := question w;
     ChatMessage.timestamp := reading w 1;
     ChatMessage.response := None;
     ChatMessage.isLoading := None |}.

Definition placeholder (w : World) : ChatMessage.t :=
  {| ChatMessage.id := toString (reading w 2 + 1);
     ChatMessage.type := bot;
     ChatMessage.content := [];
     ChatMessage.timestamp := reading w 3;
     ChatMessage.response := None;
     ChatMessage.isLoading := Some true |}.

Definition dispatched (w : World) : list ChatMessage.t :=
  chatMessages (state w) ++ [userMessage w; placeholder w].

(** The placeholder once the ask has failed with [error]. *)
Definition failedPlaceholder (w : World) (error : Thrown) : ChatMessage.t :=
  {| ChatMessage.id := toString (reading w 2 + 1);
     ChatMessage.type := bot;
     ChatMessage.content :=
       lit "Error: " ++
       match error with
       | Error message => message
       | NotAnError => lit "Failed to get response"
       end;
     ChatMessage.timestamp := reading w 3;
     ChatMessage.response := None;
     ChatMessage.isLoading := Some false |}.

(** A transcript made of exchanges: a user message, then its one
    assistant message, and so on. *)
Inductive exchanges : list ChatMessage.t -> Prop :=
| exchanges_nil : exchanges []
| exchanges_cons u a rest :
    ChatMessage.type u = user ->
    ChatMessage.type a = bot ->
    exchanges rest ->
    exchanges (u :: a :: rest).

(** Two transcripts with the same messages by position, up to what a
    resolution rewrites (content, response, pending flag). *)
Definition sameShape (a b : list ChatMessage.t) : Prop :=
  Forall2 (fun x y =>
             ChatMessage.id x = ChatMessage.id y /\
             ChatMessage.type x = ChatMessage.type y /\
             ChatMessage.timestamp x = ChatMessage.timestamp y) a b.

(** [submitLog t log t']: starting from the transcript [t], the
    replacements [log] handed to [setChatMessages] are those of submits
    run one after the other, ending in [t'].  Each submit makes two: the
    first appends the user message and a pending placeholder at once, the
    second rewrites the result in place. *)
Inductive submitLog :
  list ChatMessage.t -> list (list ChatMessage.t) -> list ChatMessage.t -> Prop :=
| submitLog_nil t : submitLog t [] t
| submitLog_cons t u p r log t' :
    ChatMessage.type u = user ->
    ChatMessage.type p = bot ->
    ChatMessage.content p = [] ->
    ChatMessage.response p = None ->
    ChatMessage.isLoading p = Some true ->
    sameShape (t ++ [u; p]) r ->
    submitLog r log t' ->
    submitLog t ((t ++ [u; p]) :: r :: log) t'.

(** A setting the caller left out or gave as zero. *)
Definition zeroOrMissing (x : option number) : Prop :=
  x = None \/ exists v, x = Some v /\ PrimFloat.is_zero v = true.

(** The document [doc] carries the default of every setting that
    [request_] left out or gave as zero, and no setting that is zero. *)
Definition defaultsApplied (request_ : QueryRequest.t) (doc : json) : Prop :=
  (zeroOrMissing (QueryRequest.temperature request_) ->
   member "temperature" doc = Some (JNumber 0.2%float)) /\
  (zeroOrMissing (QueryRequest.top_k request_) ->
   member "top_k" doc = Some (JNumber 5%float)) /\
  (zeroOrMissing (QueryRequest.similarity_threshold request_) ->
   member "similarity_threshold" doc = Some (JNumber 0.7%float)) /\
  (forall k z,
     In k ["temperature"; "top_k"; "similarity_threshold"]%string ->
     member k doc = Some (JNumber z) ->
     PrimFloat.is_zero z = false).

(** Run in [w], the call [m] sends one request, with body [doc]. *)
Definition sends {A} (m : Run A) (w : World) (doc : json) : Prop :=
  exists req,
    sent (outside (world_of (m w))) = sent (outside w) ++ [req] /\
    body req = Some doc.


(** *** The world after a submit that passes the guard *)

Definition settle (v : Outcome QueryResponse.t) (target : jsstring)
  (msg : ChatMessage.t) : ChatMessage.t :=
  if streq (ChatMessage.id msg) target then
    match v with
    | Returned response =>
        Chat.resolved msg
          (or_text (QueryResponse.answer response) (lit "No response received"))
          response
    | Threw error => Chat.failed msg (lit "Error: " ++ Chat.message_of error)
    end
  else msg.

Definition settled (w : World) : list ChatMessage.t :=
  map (settle (askVerdict w) (ChatMessage.id (placeholder w))) (dispatched w).

Definition askRequest (w : World) : HttpRequest :=
  let s := chatSettings (state w) in
  let parameters :=
    [ ("temperature",
        JSON_number (or_else (Some (ChatSettings.temperature s)) 0.2%float));
      ("top_k",
        JSON_number (or_else (Some (ChatSettings.top_k s)) 5%float));
      ("similarity_threshold",
        JSON_number
          (or_else (Some (ChatSettings.similarity_threshold s)) 0.7%float))
    ]%string in
  match backendMode (state w) with
  | api =>
      {| url := lit "http://localhost:8000/ask/";
         method := Some "POST"%string;
         headers := [("Content-Type", "application/json")%string];
         body := Some (JObject (("query"%string, JString (question w))
                                :: parameters)) |}
  | model =>
      {| url := lit "http://localhost:8001/ask_model";
         method := Some "POST"%string;
         headers := [("Content-Type", "application/json")%string];
         body := Some (JObject (("question"%string, JString (question w))
                                :: parameters)) |}
  end.

Definition afterSend (w : World) : World :=
  let s := state w in
  let o := outside w in
  let v := askVerdict w in
  {| state :=
       {| hasBackendFiles := hasBackendFiles s;
          localFiles := localFiles s;
          loading := loading s;
          chatMessages := settled w;
          backendMode := backendMode s;
          chatSettings := chatSettings s;
          queryHistory :=
            match v with
            | Returned response =>
                queryHistory s ++ [(question w, response, reading w 4)]
            | Threw _ => queryHistory s
            end;
          lastRetrievedContext :=
            match v with
            | Returned response => QueryResponse.retrieved_context response
            | Threw _ => lastRetrievedContext s
            end;
          inputValue := [];
          isLoading := false |};
     outside :=
       {| clock := clock o;
          ticks := match v with
                   | Returned _ => 5 + ticks o
                   | Threw _ => 4 + ticks o
                   end;
          answers := answers o;
          sent := sent o ++ [askRequest w];
          alerts := alerts o;
          transcripts := (transcripts o ++ [dispatched w]) ++ [settled w];
          localStorage := localStorage o |} |}.

(** The world once [text] is in the input box. *)
Definition typed (text : jsstring) (w : World) : World :=
  world_of (setInputValue text w).

(** The world once the two save effects have run. *)
Definition saved (w : World) : World :=
  world_of ((Dashboard.persistChatMessages ;; Dashboard.persistChatSettings) w).

End Spec.

Import Spec.

(* ================================================================== *)
(** * Sample data for the worked instances *)
(* ================================================================== *)

Module Sample.

Definition chunk : CodeChunk.t :=
  {| CodeChunk.content := lit "int parseInput(char *s) { return 0; }";
     CodeChunk.source := lit "parser.c";
     CodeChunk.start_line := 12%float;
     CodeChunk.type := lit "code";
     CodeChunk.distance := Some 0.25%float;
     CodeChunk.function_name := Some (lit "parseInput");
     CodeChunk.class_name := None;
     CodeChunk.struct_name := None |}.

Definition response : QueryResponse.t :=
  {| QueryResponse.answer := lit "It parses the input.";
     QueryResponse.retrieved_context := [chunk];
     QueryResponse.debug_info :=
       {| DebugInfo.retrieved_chunk_count := 1%float;
          DebugInfo.query_top_k := 3%float;
          DebugInfo.query_similarity_threshold := 0.4%float;
          DebugInfo.llm_temperature := 0.5%float |} |}.

Definition settings : ChatSettings.t :=
  {| ChatSettings.temperature := 0.5%float;
     ChatSettings.top_k := 3%float;
     ChatSettings.similarity_threshold := 0.4%float |}.

Definition file : FileData.t :=
  {| FileData.name := lit "parser.c";
     FileData.content := lit "int parseInput(char *s) { return 0; }";
     FileData.type := lit "c" |}.

Definition emptyStorage : Storage :=
  {| item_chatMessages := None;
     item_chatSettings := None;
     item_uploadedFiles := None |}.

(** Both servers are down. *)
Definition unreachable : forall A, Endpoint A -> nat -> Reply A :=
  fun _ _ _ => Rejects (Error (lit "Failed to fetch")).

(** Both servers answer every request with a 500. *)
Definition broken : forall A, Endpoint A -> nat -> Reply A :=
  fun _ _ _ =>
    Responds 500 (lit "Internal Server Error")
      (inl (Error (lit "Unexpected token in JSON"))).

(** Both servers answer; the primary one holds [files]. *)
Definition serving (files : list FileData.t)
  : forall A, Endpoint A -> nat -> Reply A :=
  fun A e _ =>
    match e in Endpoint T return Reply T with
    | health => Responds 200 [] (inr (lit "ok"))
    | list_codebase => Responds 200 [] (inr files)
    | clear_codebase => Responds 200 [] (inr (lit "cleared"))
    | ask => Responds 200 [] (inr response)
    | ask_model => Responds 200 [] (inr response)
    | generate_module_diagram =>
        Responds 200 [] (inr {| DiagramResponse.mermaid_syntax := lit "graph TD" |})
    | generate_chunk_diagram =>
        Responds 200 [] (inr {| DiagramResponse.mermaid_syntax := lit "graph TD" |})
    end.

Definition surroundings (replies : forall A, Endpoint A -> nat -> Reply A)
  (storage : Storage) : Outside :=
  {| clock := fun k => (1700000000000 + Z.of_nat k)%Z;
     ticks := 0;
     answers := replies;
     sent := [];
     alerts := [];
     transcripts := [];
     localStorage := storage |}.

(** A page with a codebase loaded, [text] in the input box and nothing
    in flight. *)
Definition page (mode : Mode) (text : jsstring)
  (replies : forall A, Endpoint A -> nat -> Reply A) : World :=
  {| state :=
       {| hasBackendFiles := true;
          localFiles := [file];
          loading := false;
          chatMessages := [];
          backendMode := mode;
          chatSettings := settings;
          queryHistory := [];
          lastRetrievedContext := [];
          inputValue := text;
          isLoading := false |};
     outside := surroundings replies emptyStorage |}.


End Sample.

(* ================================================================== *)
(** * [EnhancedDashboard.tsx]: the status indicator and the mode toggle *)
(* ================================================================== *)

Module Shell.

(** ['connected' | 'disconnected' | 'checking'] *)
Inductive BackendStatus : Type := connected | disconnected | checking.

(** The page together with the [backendStatus] hook and the
    ['backendMode'] entry of [localStorage]. *)
Record t : Type := {
  page : World;
  backendStatus : BackendStatus;
  item_backendMode : option jsstring
}.

Definition checkBackendStatus (sh : t) : t :=
  match Api.checkHealth (page sh) with
  | (Returned _, w') =>
      {| page := w'; backendStatus := connected;
         item_backendMode := item_backendMode sh |}
  | (Threw _, w') =>
      {| page := w'; backendStatus := disconnected;
         item_backendMode := item_backendMode sh |}
  end.





End Shell.

(* ================================================================== *)
(** * [FileUpload.tsx] *)
(* ================================================================== *)

Module Upload.

(** The hooks of [FileUpload]. *)
Record State : Type := {
  isDragging : bool;
  isProcessing : bool;
  error : jsstring
}.

(** The alternatives of the pattern [allowedExtensions]. *)
Definition extensions : list string :=
  [ "c"; "cpp"; "h"; "hpp"; "py"; "java"; "js"; "ts"; "tsx"; "cs"; "go";
    "php"; "rb"; "swift"; "zip" ]%string.

(** How the flag [i] compares a code unit with one of the pattern: the
    ASCII letters by their upper case, and (the pattern being ASCII) any
    other code unit as it is. *)
Definition canonicalize (c : N) : N :=
  if ((97 <=? c) && (c <=? 122))%N then (c - 32)%N else c.

Definition endsWithIgnoringCase (s suffix : jsstring) : bool :=
  startsWith (map canonicalize (rev s)) (map canonicalize (rev suffix)).

(** [allowedExtensions.test(name)]: a dot, one of the extensions, the end
    of the name. *)
Definition allowedExtensions (name : jsstring) : bool :=
  existsb (fun ext => endsWithIgnoringCase name (lit "." ++ lit ext))
          extensions.

(** [err instanceof Error ? err.message : 'Upload failed'] *)
Definition message_of (err : Thrown) : jsstring :=
  match err with
  | Error message => message
  | NotAnError => lit "Upload failed"
  end.

Definition unsupported : jsstring :=
  lit "Please upload supported code files or a zip archive.".

Definition setIsDragging (b : bool) (u : State) : State :=
  {| isDragging := b; isProcessing := isProcessing u; error := error u |}.

Definition setIsProcessing (b : bool) (u : State) : State :=
  {| isDragging := isDragging u; isProcessing := b; error := error u |}.

Definition setError (text : jsstring) (u : State) : State :=
  {| isDragging := isDragging u; isProcessing := isProcessing u;
     error := text |}.

Section Component.

(** The files of the event, each with its [name], and the prop
    [onFilesUploaded]. *)
Variable File : Type.
Variable name : File -> jsstring.
Variable onFilesUploaded : list File -> Run unit.

Definition handleDragOver (u : State) : State := setIsDragging true u.

Definition handleDragLeave (u : State) : State := setIsDragging false u.

(** [try { await onFilesUploaded(validFiles) } catch (err) { setError(...) }] *)
Definition upload (validFiles : list File) (u : State) (w : World)
  : State * World :=
  match onFilesUploaded validFiles w with
  | (Returned _, w') => (u, w')
  | (Threw err, w') => (setError (message_of err) u, w')
  end.

Definition handleDrop (files : list File) (u : State) (w : World)
  : State * World :=
  let u := setIsDragging false u in
  let u := setIsProcessing true u in
  let u := setError [] u in
  let validFiles := filter (fun file => allowedExtensions (name file)) files in
  let (u, w) :=
    if 0 <? List.length validFiles
    then upload validFiles u w
    else (setError unsupported u, w) in
  (setIsProcessing false u, w).

Definition handleFileSelect (files : list File) (u : State) (w : World)
  : State * World :=
  let validFiles := filter (fun file => allowedExtensions (name file)) files in
  if 0 <? List.length validFiles then
    let u := setIsProcessing true u in
    let u := setError [] u in
    let (u, w) := upload validFiles u w in
    (setIsProcessing false u, w)
  else
    (setError unsupported u, w).

End Component.

Arguments handleDragOver u : assert.
Arguments handleDragLeave u : assert.
Arguments upload {File} onFilesUploaded validFiles u w.
Arguments handleDrop {File} name onFilesUploaded files u w.
Arguments handleFileSelect {File} name onFilesUploaded files u w.

End Upload.

(* ================================================================== *)
(** * [EnhancedDashboard.tsx]: the chat tab *)
(* ================================================================== *)

Module Tabs.

(** [InteractiveChat] is rendered only while [activeTab === 'chat'].
    Leaving the tab unmounts it and coming back mounts it anew: its own
    hooks, [inputValue] and [isLoading], start from their initial values,
    while the hooks of the dashboard (the transcript among them) stay. *)
Definition remountChat : Run unit :=
  setInputValue [] ;;
  setIsLoading false.

(** A press on send, run up to the point where the handler waits for
    the backend. *)
Definition beginSend : Run (option (ChatMessage.t * ChatMessage.t)) :=
  fun w =>
    Chat.beginSendMessage (Dashboard.chatProps (state w))
      (inputValue (state w)) (isLoading (state w)) w.

End Tabs.

(* ================================================================== *)
(** * Further notions used to state properties *)
(* ================================================================== *)

Module Further.

(** The placeholder once the ask has resolved with [response]. *)
Definition resolvedPlaceholder (w : World) (response : QueryResponse.t)
  : ChatMessage.t :=
  {| ChatMessage.id := toString (reading w 2 + 1);
     ChatMessage.type := bot;
     ChatMessage.content :=
       match QueryResponse.answer response with
       | [] => lit "No response received"
       | answer => answer
       end;
     ChatMessage.timestamp := reading w 3;
     ChatMessage.response := Some response;
     ChatMessage.isLoading := Some false |}.

(** A message still shown as in progress. *)
Definition pending (m : ChatMessage.t) : Prop :=
  ChatMessage.isLoading m = Some true.

(** No white space at either end. *)
Definition trimmed (s : jsstring) : Prop :=
  (forall c rest, s = c :: rest -> isWhiteSpace c = false) /\
  (forall c front, s = front ++ [c] -> isWhiteSpace c = false).

(** The text an ask body carries, under either field name. *)
Definition askedText (doc : json) : option json :=
  match member "query" doc with
  | Some v => Some v
  | None => member "question" doc
  end.

(** [suffix] is [ext] up to the case of its ASCII letters. *)
Definition spelled (ext : string) (suffix : jsstring) : Prop :=
  map Upload.canonicalize suffix = map Upload.canonicalize (lit ext).

(** A name that ends in a dot and one of the extensions. *)
Definition supported (name : jsstring) : Prop :=
  exists stem ext suffix,
    In ext Upload.extensions /\
    spelled ext suffix /\
    name = stem ++ lit "." ++ suffix.

(** The files with an accepted name, in the order given. *)
Definition kept {File : Type} (name : File -> jsstring) (files : list File)
  : list File :=
  filter (fun file => Upload.allowedExtensions (name file)) files.

(** A GET of the primary backend. *)
Definition primaryGet (route : jsstring) : HttpRequest :=
  {| url := lit "http://localhost:8000" ++ route;
     method := None;
     headers := [("Content-Type", "application/json")%string];
     body := None |}.

(** A POST of JSON to the local backend. *)
Definition localPost (route : jsstring) (doc : json) : HttpRequest :=
  {| url := lit "http://localhost:8001" ++ route;
     method := Some "POST"%string;
     headers := [("Content-Type", "application/json")%string];
     body := Some doc |}.

(** Nothing of the page changed but the list of requests sent. *)
Definition onlySent (w w' : World) : Prop :=
  state w' = state w /\
  localStorage (outside w') = localStorage (outside w) /\
  alerts (outside w') = alerts (outside w) /\
  transcripts (outside w') = transcripts (outside w) /\
  ticks (outside w') = ticks (outside w).

(** The code unit [c] is the lower-case ASCII letter [p] or its
    capital. *)
Definition letterOf (c p : N) : Prop :=
  (97 <= p <= 122)%N /\ (c = p \/ c = p - 32)%N.

(** A name that ends in a dot and one of the fifteen extensions, each
    letter in either case. *)
Definition endsInExtension (name : jsstring) : Prop :=
  exists stem ext suffix,
    In ext [ "c"; "cpp"; "h"; "hpp"; "py"; "java"; "js"; "ts"; "tsx"; "cs";
             "go"; "php"; "rb"; "swift"; "zip" ]%string /\
    Forall2 letterOf suffix (lit ext) /\
    name = stem ++ [46%N] ++ suffix.

(** Run in [w], the call [m] sends the request [req] and changes nothing
    else. *)
Definition sendsOnly {A} (m : Run A) (w : World) (req : HttpRequest) : Prop :=
  sent (outside (world_of (m w))) = sent (outside w) ++ [req] /\
  onlySent w (world_of (m w)).

End Further.

Import Further.

(* ================================================================== *)
(** * Tactics that run the handlers *)
(* ================================================================== *)

(** Replace a world by its fields, so that projections compute. *)
Ltac expose w :=
  let s := fresh "s" in
  let o := fresh "o" in
  destruct w as [s o]; destruct s, o;
  cbn [state outside clock ticks answers sent alerts transcripts localStorage
       hasBackendFiles localFiles loading chatMessages backendMode
       chatSettings queryHistory lastRetrievedContext inputValue isLoading] in *.

(** Run the monad: unfold its operations and the primitives, by need. *)
Ltac exec :=
  lazy beta iota zeta delta
    [bind ret throw try_finally try_catch Date_now fetch
     Dashboard.handleUpdateChatMessages Dashboard.recordQuery
     setChatMessages setInputValue setIsLoading setQueryHistory
     setLastRetrievedContext setHasBackendFiles setLocalFiles setLoading
     setChatSettings update alert setItem removeItem getItem setStorage toward
     read write present JSON_parse JSON_stringify
     Api.request Api.askQuestion Api.askModelQuestion Api.getBaseUrl
     Api.listCodebaseFiles Api.clearCodebase Api.checkHealth
     Api.generateChunkDiagram Api.generateModuleDiagram Api.no_options
     Api.init_method Api.init_body negb world_of outcome_of
     state outside clock ticks answers sent alerts transcripts localStorage
     item_chatMessages item_chatSettings item_uploadedFiles
     fst snd hasBackendFiles localFiles loading chatMessages backendMode
     chatSettings queryHistory lastRetrievedContext inputValue isLoading].

(* ================================================================== *)
(** * Lemmas on the JavaScript operations *)
(* ================================================================== *)

Lemma streq_refl a : streq a a = true.
Proof.
  induction a as [|x a IH]; simpl; [reflexivity|].
  now rewrite N.eqb_refl.
Qed.

Lemma streq_eq a b : streq a b = true <-> a = b.
Proof.
  split.
  - revert b.
    induction a as [|x a IH]; intros [|y b]; simpl; try discriminate; auto.
    intros H. apply andb_true_iff in H as [H1 H2].
    apply N.eqb_eq in H1. f_equal; auto.
  - intros ->. apply streq_refl.
Qed.

Lemma streq_neq a b : a <> b -> streq a b = false.
Proof.
  intros H. destruct (streq a b) eqn:E; [|reflexivity].
  apply streq_eq in E. contradiction.
Qed.

Lemma trimStart_blank s : blank s = true -> trimStart s = [].
Proof.
  induction s as [|c s IH]; simpl; [reflexivity|].
  intros H. apply andb_true_iff in H as [H1 H2]. rewrite H1. auto.
Qed.

Lemma trimStart_nil_blank s : trimStart s = [] -> blank s = true.
Proof.
  induction s as [|c s IH]; simpl; [reflexivity|].
  destruct (isWhiteSpace c); [auto | discriminate].
Qed.

Lemma trimStart_split s : exists p, s = p ++ trimStart s /\ blank p = true.
Proof.
  induction s as [|c s [p [IH1 IH2]]]; simpl.
  - exists []. auto.
  - destruct (isWhiteSpace c) eqn:E.
    + exists (c :: p). simpl. rewrite E, IH2.
      split; [f_equal; exact IH1 | reflexivity].
    + exists []. auto.
Qed.

Lemma blank_rev a : blank (rev a) = blank a.
Proof.
  unfold blank. induction a as [|c a IH]; simpl; [reflexivity|].
  rewrite forallb_app, IH. simpl. rewrite andb_true_r. apply andb_comm.
Qed.

(** [trim] leaves nothing exactly of the blank strings. *)
Lemma trim_blank s : truthy (trim s) = false <-> blank s = true.
Proof.
  unfold trim, trimEnd. split.
  - intros H.
    destruct (rev (trimStart (rev (trimStart s)))) eqn:E; [|discriminate].
    apply (f_equal (@rev _)) in E. rewrite rev_involutive in E. simpl in E.
    apply trimStart_nil_blank in E. rewrite blank_rev in E.
    destruct (trimStart_split s) as [p [Hp Hb]].
    rewrite Hp. unfold blank in *. rewrite forallb_app, Hb, E. reflexivity.
  - intros H. rewrite (trimStart_blank _ H). reflexivity.
Qed.

Lemma trim_not_blank s : blank s = false -> truthy (trim s) = true.
Proof.
  intros H. destruct (truthy (trim s)) eqn:E; [reflexivity|].
  apply trim_blank in E. congruence.
Qed.

Lemma startsWith_spec s p :
  startsWith s p = true <-> exists post, s = p ++ post.
Proof.
  revert s. induction p as [|x p IH]; intros s.
  - destruct s; simpl; split; eauto.
  - destruct s as [|y s]; simpl.
    + split; [discriminate | intros [q Hq]; discriminate].
    + rewrite andb_true_iff, IH, N.eqb_eq. split.
      * intros [-> [q ->]]. eauto.
      * intros [q Hq]. injection Hq as -> ->. eauto.
Qed.

(** [includes] finds exactly the occurrences. *)
Lemma includes_spec s p : includes s p = true <-> contains s p.
Proof.
  unfold contains. induction s as [|c s IH].
  - cbn [includes]. rewrite orb_false_r, startsWith_spec. split.
    + intros [q Hq]. exists [], q. exact Hq.
    + intros [pre [post H]]. destruct pre; [eauto | discriminate].
  - cbn [includes]. rewrite orb_true_iff, startsWith_spec, IH. split.
    + intros [[q Hq] | [pre [post H]]].
      * exists [], q. exact Hq.
      * exists (c :: pre), post. rewrite H. reflexivity.
    + intros [[|c' pre] [post H]].
      * left. eauto.
      * right. injection H as _ H. eauto.
Qed.

Lemma lit_inj a b : lit a = lit b -> a = b.
Proof.
  unfold lit. intros H.
  rewrite <- (string_of_list_ascii_of_string a),
          <- (string_of_list_ascii_of_string b).
  f_equal. revert H.
  generalize (list_ascii_of_string a) (list_ascii_of_string b).
  induction l as [|x l IH]; intros [|y l']; simpl; try discriminate; auto.
  intros H. injection H as H1 H2. f_equal; auto.
  rewrite <- (ascii_N_embedding x), <- (ascii_N_embedding y). now rewrite H1.
Qed.

(** The operations on a few strings. *)
Example trim_example :
  trim (lit "  what is  this? ") = lit "what is  this?" /\
  trim ([160; 9; 10] ++ lit " ")%N = [] /\
  includes (lit "typedef struct node") (lit "struct ") = true /\
  includes (lit "structure") (lit "struct ") = false /\
  toString 1700000000001 = lit "1700000000001".
Proof. repeat split; reflexivity. Qed.

(** Distinct instants print as distinct ids. *)
Lemma toString_inj m n : toString m = toString n -> m = n.
Proof.
  unfold toString. intros H. apply lit_inj in H.
  apply DecimalZ.to_int_inj.
  assert (G : forall z,
    NilZero.int_of_string (NilZero.string_of_int (Z.to_int z))
    = Some (Z.to_int z)).
  { intros z. apply NilZero.isi.
    - destruct z; simpl; try discriminate.
      intros E. injection E as E. revert E.
      apply DecimalPos.Unsigned.to_uint_nonnil.
    - destruct z; simpl; try discriminate.
      intros E. injection E as E. revert E.
      apply DecimalPos.Unsigned.to_uint_nonnil. }
  pose proof (G m) as Gm. rewrite H, G in Gm. now injection Gm.
Qed.

(* ================================================================== *)
(** * Running the handlers *)
(* ================================================================== *)

(** What [request] makes of the reply is its [verdict], and the request
    it sends goes to the base address of the mode. *)
Lemma request_verdict {A} (e : Endpoint A) options mode w :
  outcome_of (Api.request e options mode w) = verdict (nextReply e w) /\
  sent (outside (world_of (Api.request e options mode w))) =
    sent (outside w) ++
    [{| url := Api.getBaseUrl mode ++ path e;
        method := Api.init_method options;
        headers := [("Content-Type", "application/json")%string];
        body := Api.init_body options |}].
Proof.
  unfold nextReply, verdict. expose w. exec.
  destruct (answers0 A e (List.length sent0)) as [r|st tx [err|v]].
  - split; reflexivity.
  - exec. destruct (ok st); split; reflexivity.
  - exec. destruct (ok st); split; reflexivity.
Qed.

(** A submit that passes the guard, run to its end. *)
Lemma send_accepted w :
  accepted w -> Dashboard.send w = (Returned tt, afterSend w).
Proof.
  intros (H1 & H2 & H3).
  pose proof (trim_not_blank _ H1) as T.
  expose w. subst.
  unfold Dashboard.send, Chat.handleSendMessage.
  cbn [Dashboard.chatProps Chat.hasFiles Chat.backendMode Chat.messages
       Chat.settings Chat.setMessages Chat.onQueryComplete state inputValue
       isLoading hasBackendFiles chatMessages backendMode chatSettings].
  rewrite T. cbn [negb orb].
  unfold afterSend, settled, askVerdict, askRequest, nextReply, verdict.
  cbn [state outside clock ticks answers sent alerts transcripts localStorage
       hasBackendFiles localFiles loading chatMessages backendMode
       chatSettings queryHistory lastRetrievedContext inputValue isLoading].
  destruct backendMode0.
  - exec.
    destruct (answers0 _ ask (List.length sent0)) as [r|st tx [e|v]].
    + reflexivity.
    + exec. destruct (ok st); reflexivity.
    + exec. destruct (ok st); reflexivity.
  - exec.
    destruct (answers0 _ ask_model (List.length sent0)) as [r|st tx [e|v]].
    + reflexivity.
    + exec. destruct (ok st); reflexivity.
    + exec. destruct (ok st); reflexivity.
Qed.

(* ================================================================== *)
(** * C1: the two encodings of an ask *)
(* ================================================================== *)

(** C1.  An accepted submit sends exactly one request.  Under the local
    mode it goes to the local backend's [/ask_model] and carries the
    question under [question]; under the primary mode it goes to the
    primary backend's [/ask/] and carries it under [query].  Both carry
    [temperature], [top_k] and [similarity_threshold]. *)
Theorem ask_encoding_follows_mode (w : World) :
  accepted w ->
  let w' := world_of (Dashboard.send w) in
  let s := chatSettings (state w) in
  let parameters :=
    [ ("temperature",
        JSON_number (or_else (Some (ChatSettings.temperature s)) 0.2%float));
      ("top_k",
        JSON_number (or_else (Some (ChatSettings.top_k s)) 5%float));
      ("similarity_threshold",
        JSON_number
          (or_else (Some (ChatSettings.similarity_threshold s)) 0.7%float))
    ]%string in
  exists req,
    sent (outside w') = sent (outside w) ++ [req] /\
    method req = Some "POST"%string /\
    headers req = [("Content-Type", "application/json")%string] /\
    match backendMode (state w) with
    | model =>
        url req = lit "http://localhost:8001/ask_model" /\
        body req =
          Some (JObject
                  (("question"%string, JString (trim (inputValue (state w))))
                   :: parameters)) /\
        (forall doc, body req = Some doc -> member "query" doc = None)
    | api =>
        url req = lit "http://localhost:8000/ask/" /\
        body req =
          Some (JObject
                  (("query"%string, JString (trim (inputValue (state w))))
                   :: parameters)) /\
        (forall doc, body req = Some doc -> member "question" doc = None)
    end.
Proof.
  intros H. rewrite (send_accepted w H).
  exists (askRequest w).
  cbn [world_of snd afterSend outside sent]. unfold askRequest, question.
  destruct (backendMode (state w)); cbn [method url body headers];
    repeat (split; [reflexivity|]);
    intros doc [= <-]; reflexivity.
Qed.

(** The spec's instance: settings 0.5 / 3 / 0.4 under the local mode. *)
Lemma ask_encoding_local_instance :
  sent (outside (world_of
    (Dashboard.send (Sample.page model (lit "  what does parseInput do? ")
                                 Sample.unreachable)))) =
  [{| url := lit "http://localhost:8001/ask_model";
      method := Some "POST"%string;
      headers := [("Content-Type", "application/json")%string];
      body := Some (JObject
        [ ("question", JString (lit "what does parseInput do?"));
          ("temperature", JNumber 0.5%float);
          ("top_k", JNumber 3%float);
          ("similarity_threshold", JNumber 0.4%float) ]%string) |}].
Proof.
  destruct (@ask_encoding_follows_mode
              (Sample.page model (lit "  what does parseInput do? ")
                           Sample.unreachable))
    as (req & E & M & H & U & B & _).
  - repeat split; reflexivity.
  - rewrite E.
    destruct req as [u m h b]. cbn [url method body headers] in *.
    subst u m h b. reflexivity.
Defined.

(* ================================================================== *)
(** * C3: the guard *)
(* ================================================================== *)

(** The handler is its first half followed by its second half. *)
Lemma handleSendMessage_split props inputValue isLoading w :
  Chat.handleSendMessage props inputValue isLoading w =
  (r <- Chat.beginSendMessage props inputValue isLoading ;;
   match r with
   | Some (userMessage, botMessage) =>
       Chat.finishSendMessage props userMessage botMessage
   | None => ret tt
   end) w.
Proof.
  unfold Chat.handleSendMessage, Chat.beginSendMessage.
  destruct (negb (truthy (trim inputValue)) || isLoading
            || negb (Chat.hasFiles props)); [reflexivity|].
  unfold bind, ret.
  repeat match goal with
         | |- context [match ?m ?x with (_, _) => _ end] =>
             destruct (m x) as [[?|?] ?]; cbv beta iota
         end; reflexivity.
Qed.

(** C3, as the code has it.  The guard reads two flags, not the
    transcript or the server.  (1) A submit whose input is empty or
    blank, or whose [isLoading] is on, or whose [hasFiles] is off,
    returns at once and leaves the world as it was: transcript, settings,
    input box, storage and the list of requests sent.  (2) An accepted
    submit, once it has appended its pair and waits for the backend, has
    turned [isLoading] on, so that a further submit of any text in the
    same mounted chat is such a no-op.  (3) The has-files flag is off,
    and a submit of any text a no-op, on a page that has just started,
    after a clear that succeeded, and after a listing that came back
    empty. *)
Theorem guard_rejects_by_its_flags :
  (forall props inputValue isLoading w,
     blank inputValue = true \/ isLoading = true \/
     Chat.hasFiles props = false ->
     Chat.handleSendMessage props inputValue isLoading w = (Returned tt, w)) /\
  (forall w, accepted w ->
     let flight := world_of (Tabs.beginSend w) in
     (exists userMessage botMessage,
        Tabs.beginSend w = (Returned (Some (userMessage, botMessage)), flight) /\
        Dashboard.send w =
          Chat.finishSendMessage (Dashboard.chatProps (state w))
            userMessage botMessage flight) /\
     chatMessages (state flight) = dispatched w /\
     isLoading (state flight) = true /\
     forall text,
       Dashboard.send (typed text flight) = (Returned tt, typed text flight)) /\
  (forall mode o text,
     Dashboard.send (typed text (Dashboard.start mode o))
     = (Returned tt, typed text (Dashboard.start mode o))) /\
  (forall w ack text,
     verdict (nextReply clear_codebase w) = Returned ack ->
     let cleared := world_of (Dashboard.handleClearBackendFiles w) in
     Dashboard.send (typed text cleared) = (Returned tt, typed text cleared)) /\
  (forall w text,
     verdict (nextReply list_codebase w) = Returned [] ->
     let listed := world_of (Dashboard.checkLocalFiles w) in
     Dashboard.send (typed text listed) = (Returned tt, typed text listed)).
Proof.
  assert (G : forall props inputValue isLoading w,
    blank inputValue = true \/ isLoading = true \/
    Chat.hasFiles props = false ->
    Chat.handleSendMessage props inputValue isLoading w = (Returned tt, w)).
  { intros props inputValue isLoading w H. unfold Chat.handleSendMessage.
    destruct H as [H | [H | H]].
    - apply trim_blank in H. rewrite H. reflexivity.
    - rewrite H, orb_true_r. reflexivity.
    - rewrite H, orb_true_r. reflexivity. }
  assert (T : forall text w,
    isLoading (state (typed text w)) = isLoading (state w) /\
    hasBackendFiles (state (typed text w)) = hasBackendFiles (state w)).
  { intros text w. expose w. split; reflexivity. }
  assert (N : forall text w,
    isLoading (state w) = true \/ hasBackendFiles (state w) = false ->
    Dashboard.send (typed text w) = (Returned tt, typed text w)).
  { intros text w H. unfold Dashboard.send. apply G.
    destruct (T text w) as (L & F). cbn [Dashboard.chatProps Chat.hasFiles].
    rewrite L, F. tauto. }
  split; [exact G|]. split; [|split; [|split]].
  - intros w A flight.
    assert (B : Tabs.beginSend w
                = (Returned (Some (userMessage w, placeholder w)), flight) /\
                chatMessages (state flight) = dispatched w /\
                isLoading (state flight) = true).
    { subst flight. destruct A as (A1 & A2 & A3).
      pose proof (trim_not_blank _ A1) as A0.
      unfold Tabs.beginSend, Chat.beginSendMessage.
      cbn [Dashboard.chatProps Chat.hasFiles Chat.messages Chat.setMessages].
      rewrite A0, A2, A3. cbn [negb orb].
      expose w. repeat split; reflexivity. }
    destruct B as (B1 & B2 & B3).
    split; [|split; [exact B2|split; [exact B3|]]].
    + exists (userMessage w), (placeholder w). split; [exact B1|].
      unfold Dashboard.send. rewrite handleSendMessage_split.
      unfold bind at 1.
      change (Chat.beginSendMessage (Dashboard.chatProps (state w))
                (inputValue (state w)) (isLoading (state w)) w)
        with (Tabs.beginSend w).
      rewrite B1. reflexivity.
    + intros text. apply N. now left.
  - intros mode o text. apply N. now right.
  - intros w ack text V cleared. apply N. right. subst cleared. revert V.
    unfold Dashboard.handleClearBackendFiles, nextReply, verdict.
    expose w. exec.
    destruct (answers0 _ clear_codebase (List.length sent0)) as [r|st tx [e|v]];
      try discriminate; exec; destruct (ok st); try discriminate.
    reflexivity.
  - intros w text V listed. apply N. right. subst listed. revert V.
    unfold Dashboard.checkLocalFiles, nextReply, verdict.
    expose w. exec.
    destruct (answers0 _ list_codebase (List.length sent0)) as [r|st tx [e|v]];
      try discriminate; exec; destruct (ok st); try discriminate.
    intros [= ->]. reflexivity.
Qed.

(** A second submit while the first waits for the backend. *)
Lemma guard_instance :
  let w := Sample.page api (lit "first") Sample.unreachable in
  let flight := world_of (Tabs.beginSend w) in
  map ChatMessage.isLoading (chatMessages (state flight)) = [None; Some true] /\
  Dashboard.send (typed (lit "second") flight)
    = (Returned tt, typed (lit "second") flight).
Proof.
  intros w flight.
  pose proof guard_rejects_by_its_flags as (_ & H & _).
  destruct (H w) as (_ & D & _ & S).
  - repeat split; reflexivity.
  - fold flight in D, S. split; [rewrite D; reflexivity | apply S].
Defined.

(** The claim as it stands fails twice.  An exchange is dispatched and
    waits; the user leaves the chat tab and comes back; the submit that
    follows is accepted, a request goes out and the transcript has four
    messages, the first placeholder still pending.  And on a page whose
    server lists no file after an upload, a submit is accepted and a
    request goes out. *)
Lemma guard_misses_flight_and_empty_codebase :
  let w := Sample.page api (lit "first") Sample.unreachable in
  let flight := world_of (Tabs.beginSend w) in
  let back := world_of (Tabs.remountChat flight) in
  let again := world_of (Dashboard.send (typed (lit "second") back)) in
  let empty :=
    world_of (Dashboard.handleBackendFilesUploaded [lit "notes.txt"]
      (Dashboard.start api
         (Sample.surroundings (Sample.serving []) Sample.emptyStorage))) in
  let asked := world_of (Dashboard.send (typed (lit "hello") empty)) in
  (map ChatMessage.isLoading (chatMessages (state flight)) = [None; Some true] /\
   map ChatMessage.isLoading (chatMessages (state again))
     = [None; Some true; None; Some false] /\
   List.length (sent (outside again)) = S (List.length (sent (outside back)))) /\
  (localFiles (state empty) = [] /\
   List.length (chatMessages (state asked)) = 2 /\
   List.length (sent (outside asked)) = S (List.length (sent (outside empty)))).
Proof. repeat split; reflexivity. Qed.

(* ================================================================== *)
(** * C2: the transcript grows by whole exchanges *)
(* ================================================================== *)

Lemma settle_shape v target msg :
  ChatMessage.id msg = ChatMessage.id (settle v target msg) /\
  ChatMessage.type msg = ChatMessage.type (settle v target msg) /\
  ChatMessage.timestamp msg = ChatMessage.timestamp (settle v target msg).
Proof.
  unfold settle.
  destruct (streq (ChatMessage.id msg) target); [|auto].
  destruct v; auto.
Qed.

Lemma sameShape_settle v target l : sameShape l (map (settle v target) l).
Proof.
  unfold sameShape. induction l as [|m l IH]; simpl; constructor; auto.
  apply settle_shape.
Qed.

Lemma sameShape_length {a b} : sameShape a b -> List.length a = List.length b.
Proof. apply Forall2_length. Qed.

Lemma exchanges_app a b : exchanges a -> exchanges b -> exchanges (a ++ b).
Proof.
  induction 1; simpl; auto. intros Hb. constructor; auto.
Qed.

Lemma exchanges_sameShape {a b} : sameShape a b -> exchanges a -> exchanges b.
Proof.
  intros S E. revert b S.
  induction E as [|u x rest Hu Hx E IH]; intros b S.
  - inversion S. constructor.
  - inversion S as [|u0 u' l0 l' (_ & Tu & _) S']; subst.
    inversion S' as [|x0 x' l1 l'' (_ & Tx & _) S'']; subst.
    constructor; [congruence | congruence | auto].
Qed.

Lemma submitLog_length {t log t'} :
  submitLog t log t' ->
  List.length t' = List.length t + List.length log.
Proof.
  induction 1 as [|t u p r log t' _ _ _ _ _ S _ IH]; simpl; [lia|].
  rewrite IH, <- (sameShape_length S), length_app. simpl. lia.
Qed.

(** One submit of a text that is not blank, with the save effects. *)
Lemma submit_accepted text w :
  blank text = false ->
  isLoading (state w) = false ->
  hasBackendFiles (state w) = true ->
  Dashboard.submit text w = (Returned tt, saved (afterSend (typed text w))).
Proof.
  intros B L F.
  assert (A : accepted (typed text w)).
  { unfold accepted, typed. expose w. exec. auto. }
  unfold Dashboard.submit, bind at 1.
  change (setInputValue text w) with (Returned tt, typed text w).
  cbv beta iota. unfold try_finally. rewrite (send_accepted _ A).
  unfold saved. expose w. reflexivity.
Qed.

(** The save effects touch the storage only. *)
Lemma saved_state w : state (saved w) = state w.
Proof. expose w. reflexivity. Qed.

Lemma saved_transcripts w :
  transcripts (outside (saved w)) = transcripts (outside w).
Proof. expose w. reflexivity. Qed.

(** What one accepted submit leaves behind. *)
Lemma submit_effect text w :
  blank text = false ->
  isLoading (state w) = false ->
  hasBackendFiles (state w) = true ->
  let w' := world_of (Dashboard.submit text w) in
  isLoading (state w') = false /\
  hasBackendFiles (state w') = true /\
  exists u p,
    ChatMessage.type u = user /\
    ChatMessage.content u = trim text /\
    ChatMessage.type p = bot /\
    ChatMessage.content p = [] /\
    ChatMessage.response p = None /\
    ChatMessage.isLoading p = Some true /\
    sameShape (chatMessages (state w) ++ [u; p]) (chatMessages (state w')) /\
    transcripts (outside w') =
      transcripts (outside w) ++
      [chatMessages (state w) ++ [u; p]; chatMessages (state w')].
Proof.
  intros B L F w'. subst w'.
  rewrite (submit_accepted text w B L F).
  cbn [world_of snd]. rewrite saved_state, saved_transcripts.
  cbn [afterSend state outside isLoading hasBackendFiles chatMessages
       transcripts].
  split; [reflexivity|]. split; [exact F|].
  exists (userMessage (typed text w)), (placeholder (typed text w)).
  repeat (split; [reflexivity|]).
  split.
  - apply sameShape_settle.
  - rewrite <- app_assoc. reflexivity.
Qed.

(** C2.  Submits of non-blank texts, each run to its resolution before
    the next, from a page with a codebase and nothing in flight: the
    transcript gains two messages per submit; made of exchanges before, it
    is made of exchanges after; and the transcripts handed to
    [setChatMessages] are, per submit, one that appends the user message
    together with a pending, empty assistant message, then one that
    rewrites it in place. *)
Theorem submits_append_whole_exchanges (texts : list jsstring) (w : World) :
  isLoading (state w) = false ->
  hasBackendFiles (state w) = true ->
  Forall (fun text => blank text = false) texts ->
  let w' := world_of (Dashboard.submits texts w) in
  List.length (chatMessages (state w')) =
    List.length (chatMessages (state w)) + 2 * List.length texts /\
  (exchanges (chatMessages (state w)) -> exchanges (chatMessages (state w'))) /\
  exists log,
    transcripts (outside w') = transcripts (outside w) ++ log /\
    submitLog (chatMessages (state w)) log (chatMessages (state w')).
Proof.
  intros L F B. revert w L F.
  induction B as [|text texts Bt _ IH]; intros w L F w'.
  - subst w'. cbn. split; [lia|]. split; [auto|].
    exists []. rewrite app_nil_r. split; [reflexivity | constructor].
  - destruct (submit_effect text w Bt L F)
      as (L1 & F1 & u & p & Tu & _ & Tp & Cp & Rp & Pp & S & Tr).
    assert (E : Dashboard.submits (text :: texts) w =
                Dashboard.submits texts (world_of (Dashboard.submit text w))).
    { cbn [Dashboard.submits]. unfold bind at 1, try_catch.
      rewrite (submit_accepted text w Bt L F). reflexivity. }
    subst w'. rewrite E.
    set (w1 := world_of (Dashboard.submit text w)) in *.
    destruct (IH w1 L1 F1) as (Len & Ex & log & Tr' & Log).
    split; [|split].
    + rewrite Len, <- (sameShape_length S), length_app. simpl. lia.
    + intros Ex0. apply Ex. apply (exchanges_sameShape S).
      apply exchanges_app; [exact Ex0|].
      constructor; [exact Tu | exact Tp | constructor].
    + exists ((chatMessages (state w) ++ [u; p]) :: chatMessages (state w1) :: log).
      split.
      * rewrite Tr', Tr, <- app_assoc. reflexivity.
      * econstructor; eassumption.
Qed.

(** Two submits on a fresh page: four messages in two exchanges, after
    four replacements of the transcript. *)
Lemma submits_twice_instance :
  let w := Sample.page model [] (Sample.serving [Sample.file]) in
  let w' := world_of (Dashboard.submits [lit "what is parseInput?"; lit "and main?"] w) in
  List.length (chatMessages (state w')) = 4 /\
  exchanges (chatMessages (state w')) /\
  List.length (transcripts (outside w')) = 4.
Proof.
  intros w w'.
  destruct (@submits_append_whole_exchanges
              [lit "what is parseInput?"; lit "and main?"] w)
    as (Len & Ex & log & Tr & Log).
  - reflexivity.
  - reflexivity.
  - repeat constructor.
  - fold w' in Len, Ex, Tr, Log.
    split; [exact Len|]. split; [apply Ex; constructor|].
    rewrite Tr, length_app.
    pose proof (submitLog_length Log) as G. rewrite Len in G.
    cbn in G |- *. lia.
Defined.

(* ================================================================== *)
(** * C4: a failed ask *)
(* ================================================================== *)

Lemma settle_other v target msg :
  ChatMessage.id msg <> target -> settle v target msg = msg.
Proof. intros H. unfold settle. now rewrite (streq_neq _ _ H). Qed.

Lemma settle_failed w error :
  settle (Threw error) (ChatMessage.id (placeholder w)) (placeholder w)
  = failedPlaceholder w error.
Proof.
  unfold settle. rewrite streq_refl. destruct error; reflexivity.
Qed.

Lemma userMessage_id w :
  reading w 0 <> (reading w 2 + 1)%Z ->
  ChatMessage.id (userMessage w) <> ChatMessage.id (placeholder w).
Proof. intros H E. apply H. exact (toString_inj _ _ E). Qed.

(** C4.  When the ask of an accepted submit fails, the handler returns
    normally; the transcript keeps its length; the messages are matched
    by id: one whose id is not the placeholder's is as it was dispatched,
    one whose id is the placeholder's gets the error summary and is no
    longer pending.  The placeholder, last in the transcript, thus holds
    the error summary, is not pending and has no result.  When the
    placeholder's id is fresh, the transcript is the old one followed by
    the user message and that failed placeholder. *)
Theorem failed_ask_rewrites_placeholder (w : World) (error : Thrown) :
  accepted w ->
  askVerdict w = Threw error ->
  let r := Dashboard.send w in
  let after := chatMessages (state (world_of r)) in
  outcome_of r = Returned tt /\
  List.length after = List.length (dispatched w) /\
  (forall i m,
     nth_error (dispatched w) i = Some m ->
     ChatMessage.id m <> ChatMessage.id (placeholder w) ->
     nth_error after i = Some m) /\
  (forall i m,
     nth_error (dispatched w) i = Some m ->
     ChatMessage.id m = ChatMessage.id (placeholder w) ->
     nth_error after i =
       Some (Chat.failed m (lit "Error: " ++ Chat.message_of error))) /\
  nth_error after (S (List.length (chatMessages (state w))))
    = Some (failedPlaceholder w error) /\
  ((forall m, In m (chatMessages (state w)) ->
              ChatMessage.id m <> ChatMessage.id (placeholder w)) ->
   reading w 0 <> (reading w 2 + 1)%Z ->
   after = chatMessages (state w) ++ [userMessage w; failedPlaceholder w error]).
Proof.
  intros A V r after. subst r after.
  rewrite (send_accepted w A).
  cbn [world_of outcome_of fst snd afterSend state chatMessages].
  unfold settled. rewrite V.
  split; [reflexivity|]. split; [apply length_map|]. split; [|split; [|split]].
  - intros i m Hm Hid. rewrite nth_error_map, Hm. cbn [option_map].
    now rewrite settle_other.
  - intros i m Hm Hid. rewrite nth_error_map, Hm. cbn [option_map].
    unfold settle. now rewrite (proj2 (streq_eq _ _) Hid).
  - rewrite nth_error_map. unfold dispatched.
    rewrite nth_error_app2 by lia.
    replace (S (List.length (chatMessages (state w)))
             - List.length (chatMessages (state w))) with 1 by lia.
    cbn [nth_error option_map]. now rewrite settle_failed.
  - intros Fresh Clock. unfold dispatched. rewrite map_app. f_equal.
    + rewrite <- (map_id (chatMessages (state w))) at 2.
      apply map_ext_in. intros m Hm. apply settle_other. auto.
    + cbn [map]. rewrite settle_failed, settle_other; [reflexivity|].
      now apply userMessage_id.
Qed.

(** The primary backend answers 500: the placeholder reads
    [Error: HTTP 500: Internal Server Error]. *)
Lemma failed_ask_instance :
  let w := Sample.page api (lit "what is parseInput?") Sample.broken in
  let r := Dashboard.send w in
  outcome_of r = Returned tt /\
  map ChatMessage.content (chatMessages (state (world_of r))) =
    [lit "what is parseInput?"; lit "Error: HTTP 500: Internal Server Error"] /\
  map ChatMessage.isLoading (chatMessages (state (world_of r))) =
    [None; Some false] /\
  map ChatMessage.response (chatMessages (state (world_of r))) =
    [None; None].
Proof.
  intros w r.
  destruct (@failed_ask_rewrites_placeholder w
              (Error (lit "HTTP 500: Internal Server Error")))
    as (O & _ & _ & _ & _ & E).
  - repeat split; reflexivity.
  - reflexivity.
  - fold r in O, E. split; [exact O|].
    rewrite E.
    + repeat split; reflexivity.
    + intros m [].
    + vm_compute. discriminate.
Defined.

(* ================================================================== *)
(** * C5: the observer *)
(* ================================================================== *)

(** C5, as the code has it.  After an accepted submit whose ask
    resolves, the dashboard's observer has recorded the trimmed query,
    the response and the instant read after the transcript was updated;
    after one whose ask fails, it has recorded nothing. *)
Theorem observer_hears_resolved_asks_only (w : World) :
  accepted w ->
  let w' := world_of (Dashboard.send w) in
  match askVerdict w with
  | Returned response =>
      queryHistory (state w') =
        queryHistory (state w) ++
        [(trim (inputValue (state w)), response, reading w 4)]
  | Threw _ => queryHistory (state w') = queryHistory (state w)
  end.
Proof.
  intros A w'. subst w'. rewrite (send_accepted w A).
  cbn [world_of snd afterSend state queryHistory].
  destruct (askVerdict w); reflexivity.
Qed.

Lemma observer_instance :
  let w := Sample.page model (lit "what is parseInput?")
             (Sample.serving [Sample.file]) in
  queryHistory (state (world_of (Dashboard.send w))) =
    [(lit "what is parseInput?", Sample.response, 1700000000004%Z)].
Proof.
  intros w.
  pose proof (@observer_hears_resolved_asks_only w) as H.
  apply H. repeat split; reflexivity.
Defined.

(** An exchange is dispatched, its ask fails, and the observer is not
    told: the history stays empty. *)
Lemma failed_ask_is_not_reported :
  let w := Sample.page api (lit "what is parseInput?") Sample.unreachable in
  let w' := world_of (Dashboard.send w) in
  accepted w /\
  List.length (sent (outside w')) = 1 /\
  map ChatMessage.content (chatMessages (state w')) =
    [lit "what is parseInput?"; lit "Error: Failed to fetch"] /\
  queryHistory (state w') = [].
Proof.
  repeat split; reflexivity.
Qed.

(* ================================================================== *)
(** * C6: clearing the codebase *)
(* ================================================================== *)

(** C6.  [handleClearBackendFiles] always returns normally, after one
    POST to the primary backend's [/clear_codebase].  When that call
    succeeds, the file list, the flag, the stored file mirror and the
    transcript are emptied.  When it fails, the state and the storage are
    as before and an alert tells the user. *)
Theorem clear_is_all_or_nothing (w : World) :
  let r := Dashboard.handleClearBackendFiles w in
  let w' := world_of r in
  outcome_of r = Returned tt /\
  sent (outside w') =
    sent (outside w) ++
    [{| url := lit "http://localhost:8000/clear_codebase";
        method := Some "POST"%string;
        headers := [("Content-Type", "application/json")%string];
        body := None |}] /\
  match verdict (nextReply clear_codebase w) with
  | Returned _ =>
      localFiles (state w') = [] /\
      hasBackendFiles (state w') = false /\
      item_uploadedFiles (localStorage (outside w')) = None /\
      chatMessages (state w') = [] /\
      alerts (outside w') = alerts (outside w)
  | Threw _ =>
      state w' = state w /\
      localStorage (outside w') = localStorage (outside w) /\
      alerts (outside w') =
        alerts (outside w) ++
        [lit "Failed to clear files. Please check backend connection."]
  end.
Proof.
  unfold Dashboard.handleClearBackendFiles, nextReply, verdict.
  expose w. exec.
  destruct (answers0 _ clear_codebase (List.length sent0)) as [r|st tx [e|v]].
  - repeat split; reflexivity.
  - exec. destruct (ok st); repeat split; reflexivity.
  - exec. destruct (ok st); repeat split; reflexivity.
Qed.

(** A remote 500 on clear: nothing changes but the alert. *)
Lemma clear_failure_instance :
  let w := Sample.page api [] Sample.broken in
  let w' := world_of (Dashboard.handleClearBackendFiles w) in
  state w' = state w /\
  localStorage (outside w') = localStorage (outside w) /\
  alerts (outside w') =
    [lit "Failed to clear files. Please check backend connection."].
Proof.
  intros w w'.
  pose proof (@clear_is_all_or_nothing w) as (_ & _ & H).
  exact H.
Defined.

(** A clear that succeeds: everything is emptied. *)
Lemma clear_success_instance :
  let w := Sample.page api [] (Sample.serving [Sample.file]) in
  let w' := world_of (Dashboard.handleClearBackendFiles w) in
  localFiles (state w') = [] /\
  hasBackendFiles (state w') = false /\
  item_uploadedFiles (localStorage (outside w')) = None /\
  chatMessages (state w') = [] /\
  alerts (outside w') = [].
Proof. repeat split; reflexivity. Qed.

(* ================================================================== *)
(** * C7: reading the saved state at startup *)
(* ================================================================== *)




(* ================================================================== *)
(** * C8: the chunk diagram under the primary mode *)
(* ================================================================== *)

(** C8.  Under the primary mode, asking for a chunk diagram returns a
    diagram and leaves the world as it was, so no request is sent.  With
    a function name (defined and not empty) it is the flowchart skeleton
    for that name; otherwise, with type [class] or a [class ] or
    [struct ] marker in the content, the class-diagram skeleton;
    otherwise the generic stub.  The three texts are those of the
    template literals of the source, code unit 10 being the line feed
    they write as [\n]. *)
Theorem primary_chunk_diagram_is_local (props : Chat.Props) (w : World)
  (chunk : CodeChunk.t) :
  Chat.backendMode props = api ->
  exists diagram,
    Chat.generateMermaidForChunk props chunk w = (Returned diagram, w) /\
    (forall name,
       CodeChunk.function_name chunk = Some name -> name <> [] ->
       diagram =
         lit "graph TD" ++ [10%N] ++
         lit "    A[Start " ++ name ++ lit "] --> B{Process?}" ++ [10%N] ++
         lit "    B -- Yes --> C[Do Something]" ++ [10%N] ++
         lit "    C --> D[End]" ++ [10%N] ++
         lit "    B -- No --> D") /\
    (CodeChunk.function_name chunk = None \/
     CodeChunk.function_name chunk = Some [] ->
     (CodeChunk.type chunk = lit "class" \/
      contains (CodeChunk.content chunk) (lit "class ") \/
      contains (CodeChunk.content chunk) (lit "struct ") ->
      diagram =
        lit "classDiagram" ++ [10%N] ++
        lit "    class MyClass {" ++ [10%N] ++
        lit "        + myMethod()" ++ [10%N] ++
        lit "        - myField" ++ [10%N] ++
        lit "    }" ++ [10%N] ++
        lit "    MyClass <|-- AnotherClass" ++ [10%N] ++
        lit "    MyClass : +memberVariable" ++ [10%N] ++
        lit "    MyClass : +memberFunction()") /\
     (CodeChunk.type chunk <> lit "class" ->
      ~ contains (CodeChunk.content chunk) (lit "class ") ->
      ~ contains (CodeChunk.content chunk) (lit "struct ") ->
      diagram =
        lit "graph TD" ++ [10%N] ++
        lit "    A[Code Chunk] --> B[Content Analysis]" ++ [10%N] ++
        lit "    B --> C[No specific structure found]")).
Proof.
  intros M.
  unfold Chat.generateMermaidForChunk. rewrite M.
  assert (K : streq (CodeChunk.type chunk) (lit "class")
              || includes (CodeChunk.content chunk) (lit "class ")
              || includes (CodeChunk.content chunk) (lit "struct ") = true
              <-> (CodeChunk.type chunk = lit "class" \/
                   contains (CodeChunk.content chunk) (lit "class ") \/
                   contains (CodeChunk.content chunk) (lit "struct "))).
  { rewrite !orb_true_iff, streq_eq, !includes_spec. tauto. }
  destruct (CodeChunk.function_name chunk) as [[|c name]|] eqn:N;
    cbn [Chat.named truthy].
  2: { exists (Chat.flowchart (c :: name)). split; [reflexivity|]. split.
       - intros name' [= <-] _. reflexivity.
       - intros [H | H]; discriminate. }
  all: destruct (streq (CodeChunk.type chunk) (lit "class")
                 || includes (CodeChunk.content chunk) (lit "class ")
                 || includes (CodeChunk.content chunk) (lit "struct "));
       eexists; (split; [reflexivity|]); split;
       try (intros name' [= <-] Hn; congruence);
       try (intros name' [=]);
       intros _; split.
  all: try (intros _; reflexivity).
  all: try (intros HT HC HS; exfalso;
            destruct (proj1 K eq_refl) as [H | [H | H]]; contradiction).
  all: try (intros H; apply K in H; discriminate).
  all: try (intros; reflexivity).
Qed.

(** The spec's instance: a chunk of the function [parseInput]. *)
Lemma primary_chunk_diagram_instance :
  let w := Sample.page api [] Sample.unreachable in
  Dashboard.viewChunkDiagram Sample.chunk w =
    (Returned
       (lit "graph TD" ++ LF ++
        lit "    A[Start parseInput] --> B{Process?}" ++ LF ++
        lit "    B -- Yes --> C[Do Something]" ++ LF ++
        lit "    C --> D[End]" ++ LF ++
        lit "    B -- No --> D"),
     w) /\
  sent (outside (world_of (Dashboard.viewChunkDiagram Sample.chunk w))) = [].
Proof.
  intros w.
  destruct (@primary_chunk_diagram_is_local
              (Dashboard.chatProps (state w)) w Sample.chunk eq_refl)
    as (diagram & E & F & _).
  unfold Dashboard.viewChunkDiagram. rewrite E. rewrite (F (lit "parseInput") eq_refl) by discriminate.
  split; reflexivity.
Defined.

(** Under the local mode the diagram is asked of the local backend. *)
Lemma local_chunk_diagram_asks_backend :
  let w := Sample.page model [] (Sample.serving [Sample.file]) in
  let r := Dashboard.viewChunkDiagram Sample.chunk w in
  outcome_of r = Returned (lit "graph TD") /\
  map url (sent (outside (world_of r))) =
    [lit "http://localhost:8001/generate_chunk_diagram"].
Proof. split; reflexivity. Qed.

(* ================================================================== *)
(** * C9: the flag after an upload *)
(* ================================================================== *)

(** [checkLocalFiles] itself sets the flag from what the server lists. *)
Lemma refresh_flag_follows_listing (w : World) (files : list FileData.t) :
  verdict (nextReply list_codebase w) = Returned files ->
  let w' := world_of (Dashboard.checkLocalFiles w) in
  localFiles (state w') = files /\
  hasBackendFiles (state w') = (0 <? List.length files).
Proof.
  unfold Dashboard.checkLocalFiles, nextReply, verdict.
  expose w. exec.
  destruct (answers0 _ list_codebase (List.length sent0)) as [r|st tx [e|v]];
    try discriminate.
  - destruct (ok st); discriminate.
  - exec. destruct (ok st); [|discriminate].
    intros [= <-]. split; reflexivity.
Qed.

(** Whenever [handleBackendFilesUploaded] returns, the flag is set,
    whatever the listing said. *)
Lemma upload_sets_flag_regardless (File : Type) (files : list File) (w : World) :
  let r := Dashboard.handleBackendFilesUploaded files w in
  outcome_of r = Returned tt -> hasBackendFiles (state (world_of r)) = true.
Proof.
  intros r. subst r. unfold Dashboard.handleBackendFilesUploaded, bind.
  destruct (Dashboard.checkLocalFiles w) as [[[]|e] w1]; cbn;
    [reflexivity | discriminate].
Qed.

(** C9, against the code.  After an upload the server lists no file, or
    cannot be reached while nothing is cached: the flag ends up set over
    an empty file list, although [checkLocalFiles] alone had left it
    unset. *)
Lemma upload_flag_set_over_empty_listing :
  let listed := Dashboard.start api
                  (Sample.surroundings (Sample.serving []) Sample.emptyStorage) in
  let down := Dashboard.start api
                (Sample.surroundings Sample.unreachable Sample.emptyStorage) in
  let after w :=
    state (world_of (Dashboard.handleBackendFilesUploaded [lit "parser.c"] w)) in
  (localFiles (after listed) = [] /\ hasBackendFiles (after listed) = true) /\
  (localFiles (after down) = [] /\ hasBackendFiles (after down) = true) /\
  hasBackendFiles (state (world_of (Dashboard.checkLocalFiles listed))) = false.
Proof. repeat split; reflexivity. Qed.

(* ================================================================== *)
(** * C10: zero settings *)
(* ================================================================== *)

Lemma or_else_nonzero x d :
  PrimFloat.is_zero d = false -> PrimFloat.is_zero (or_else x d) = false.
Proof.
  intros D. destruct x as [v|]; cbn [or_else]; [|exact D].
  unfold falsy. destruct (PrimFloat.is_zero v) eqn:Z; cbn [orb]; [exact D|].
  destruct (PrimFloat.is_nan v); [exact D | exact Z].
Qed.

Lemma or_else_default x d : zeroOrMissing x -> or_else x d = d.
Proof.
  intros [-> | (v & -> & Z)]; cbn [or_else]; [reflexivity|].
  unfold falsy. now rewrite Z.
Qed.

Lemma JSON_number_inv x z : JSON_number x = JNumber z -> x = z.
Proof.
  unfold JSON_number. destruct (PrimFloat.is_finite x); [|discriminate].
  now intros [= ->].
Qed.

(** The three settings of an ask body, after any first member. *)
Lemma ask_body_defaults (request_ : QueryRequest.t) (k0 : string) (v0 : json)
  (others : list (string * json)) :
  k0 <> "temperature"%string ->
  k0 <> "top_k"%string ->
  k0 <> "similarity_threshold"%string ->
  defaultsApplied request_
    (JObject
       ((k0, v0) ::
        ("temperature"%string,
          JSON_number (or_else (QueryRequest.temperature request_) 0.2%float)) ::
        ("top_k"%string,
          JSON_number (or_else (QueryRequest.top_k request_) 5%float)) ::
        ("similarity_threshold"%string,
          JSON_number
            (or_else (QueryRequest.similarity_threshold request_) 0.7%float)) ::
        others)).
Proof.
  intros N1 N2 N3. unfold defaultsApplied. cbn [member lookup].
  assert (E1 : String.eqb "temperature" k0 = false)
    by (apply String.eqb_neq; congruence).
  assert (E2 : String.eqb "top_k" k0 = false)
    by (apply String.eqb_neq; congruence).
  assert (E3 : String.eqb "similarity_threshold" k0 = false)
    by (apply String.eqb_neq; congruence).
  rewrite E1, E2, E3.
  repeat split.
  - intros Z. cbn. now rewrite (or_else_default _ _ Z).
  - intros Z. cbn. now rewrite (or_else_default _ _ Z).
  - intros Z. cbn. now rewrite (or_else_default _ _ Z).
  - intros k z [<- | [<- | [<- | []]]]; rewrite ?E1, ?E2, ?E3; cbn;
      intros [= E]; apply JSON_number_inv in E; subst z;
      now apply or_else_nonzero.
Qed.

(** C10.  Both ask operations send one request whose body carries 0.2,
    5 and 0.7 for a temperature, a top_k and a similarity_threshold that
    the caller left out or gave as zero, and never a zero for any of the
    three. *)
Theorem zero_settings_fall_back_to_defaults
  (request_ : QueryRequest.t) (w : World) :
  (exists doc,
     sends (Api.askQuestion request_) w doc /\ defaultsApplied request_ doc) /\
  (exists doc,
     sends (Api.askModelQuestion request_) w doc /\ defaultsApplied request_ doc).
Proof.
  split.
  - eexists. split.
    + unfold sends, Api.askQuestion.
      eexists. rewrite (proj2 (request_verdict _ _ _ _)).
      split; reflexivity.
    + cbn [Api.init_body JSON_object defined].
      apply ask_body_defaults; discriminate.
  - eexists. split.
    + unfold sends, Api.askModelQuestion.
      eexists. rewrite (proj2 (request_verdict _ _ _ _)).
      split; reflexivity.
    + cbn [Api.init_body JSON_object defined].
      apply ask_body_defaults; discriminate.
Qed.

(** Zero for temperature and top_k, no similarity_threshold: both
    operations send the three defaults. *)
Lemma zero_settings_instance :
  let zeros :=
    {| QueryRequest.query := lit "what is parseInput?";
       QueryRequest.temperature := Some 0%float;
       QueryRequest.top_k := Some (-0)%float;
       QueryRequest.similarity_threshold := None;
       QueryRequest.filter_type := None |} in
  let w := Sample.page api [] Sample.unreachable in
  let defaults doc :=
    member "temperature" doc = Some (JNumber 0.2%float) /\
    member "top_k" doc = Some (JNumber 5%float) /\
    member "similarity_threshold" doc = Some (JNumber 0.7%float) in
  (exists doc, sends (Api.askQuestion zeros) w doc /\ defaults doc) /\
  (exists doc, sends (Api.askModelQuestion zeros) w doc /\ defaults doc).
Proof.
  intros zeros w defaults.
  assert (Zt : zeroOrMissing (QueryRequest.temperature zeros)).
  { right. exists 0%float. split; reflexivity. }
  assert (Zk : zeroOrMissing (QueryRequest.top_k zeros)).
  { right. exists (-0)%float. split; reflexivity. }
  assert (Zs : zeroOrMissing (QueryRequest.similarity_threshold zeros)).
  { left. reflexivity. }
  destruct (@zero_settings_fall_back_to_defaults zeros w)
    as ((doc1 & S1 & D1 & D2 & D3 & _) & (doc2 & S2 & E1 & E2 & E3 & _)).
  split; [exists doc1 | exists doc2]; (split; [assumption|]);
    unfold defaults; auto.
Defined.

(* ================================================================== *)
(** * Further properties: the backend client *)
(* ================================================================== *)

(** [request] sends one request, to the base address of the mode, and
    touches nothing else. *)
Lemma request_sendsOnly {A} (e : Endpoint A) options mode w :
  sendsOnly (Api.request e options mode) w
    {| url := Api.getBaseUrl mode ++ path e;
       method := Api.init_method options;
       headers := [("Content-Type", "application/json")%string];
       body := Api.init_body options |}.
Proof.
  unfold sendsOnly, onlySent. expose w. exec.
  destruct (answers0 A e (List.length sent0)) as [r|st tx [err|v]].
  - repeat split; reflexivity.
  - exec. destruct (ok st); repeat split; reflexivity.
  - exec. destruct (ok st); repeat split; reflexivity.
Qed.

Lemma ok_range status : ok status = true <-> (200 <= status <= 299)%Z.
Proof. unfold ok. rewrite andb_true_iff, !Z.leb_le. tauto. Qed.

(** X1.  Whatever the mode the user has selected, the health check, the
    file listing and the clear go to the primary backend (GET, GET and
    POST without a body), and the two diagram calls POST their payload to
    the local backend; each sends that one request and changes nothing
    else of the page. *)
Theorem operations_have_fixed_backends (w : World) (payload : DiagramPayload.t) :
  sendsOnly Api.checkHealth w (primaryGet (lit "/health")) /\
  sendsOnly Api.listCodebaseFiles w (primaryGet (lit "/list_codebase")) /\
  sendsOnly Api.clearCodebase w
    {| url := lit "http://localhost:8000/clear_codebase";
       method := Some "POST"%string;
       headers := [("Content-Type", "application/json")%string];
       body := None |} /\
  sendsOnly (Api.generateModuleDiagram payload) w
    (localPost (lit "/generate_module_diagram") (Api.payload_json payload)) /\
  sendsOnly (Api.generateChunkDiagram payload) w
    (localPost (lit "/generate_chunk_diagram") (Api.payload_json payload)).
Proof.
  repeat split; apply request_sendsOnly.
Qed.

(** X2.  A call of [request] returns a value exactly when the reply has a
    status from 200 to 299 and a body that decodes to that value.  With
    any other status it throws an error whose message is [HTTP], the
    status and the body text, whether or not that body is JSON. *)
Theorem request_returns_decoded_2xx_only {A} (e : Endpoint A)
  (options : Api.RequestInit) (mode : Mode) (w : World) :
  let outcome := outcome_of (Api.request e options mode w) in
  (forall v,
     outcome = Returned v <->
     exists status text,
       nextReply e w = Responds status text (inr v) /\
       (200 <= status <= 299)%Z) /\
  (forall status text decoded,
     nextReply e w = Responds status text decoded ->
     ~ (200 <= status <= 299)%Z ->
     outcome = Threw (Error (lit "HTTP " ++ toString status ++ lit ": " ++ text))) /\
  (forall reason, nextReply e w = Rejects reason -> outcome = Threw reason).
Proof.
  intros outcome. subst outcome.
  rewrite (proj1 (request_verdict e options mode w)).
  unfold verdict.
  destruct (nextReply e w) as [r|st tx [err|v0]].
  - split; [|split].
    + intros v. split; [discriminate | intros (s & t & [=] & _)].
    + intros s t d [=].
    + intros reason [= <-]. reflexivity.
  - split; [|split].
    + intros v. split.
      * destruct (ok st); discriminate.
      * intros (s & t & [=] & _).
    + intros s t d [= <- <- <-] N.
      destruct (ok st) eqn:O; [|reflexivity].
      apply ok_range in O. contradiction.
    + intros reason [=].
  - split; [|split].
    + intros v. split.
      * destruct (ok st) eqn:O; [|discriminate].
        intros [= <-]. exists st, tx. split; [reflexivity|].
        now apply ok_range.
      * intros (s & t & [= <- <- <-] & R).
        apply ok_range in R. now rewrite R.
    + intros s t d [= <- <- <-] N.
      destruct (ok st) eqn:O; [|reflexivity].
      apply ok_range in O. contradiction.
    + intros reason [=].
Qed.

(** A 404 whose body is valid JSON still fails, with the status and the
    text in the message. *)
Lemma request_404_instance :
  let replies : forall A, Endpoint A -> nat -> Reply A :=
    fun A e _ =>
      match e in Endpoint T return Reply T with
      | list_codebase => Responds 404 (lit "[]") (inr [])
      | _ => Rejects NotAnError
      end in
  let w := Sample.page model [] replies in
  outcome_of (Api.listCodebaseFiles w) = Threw (Error (lit "HTTP 404: []")).
Proof.
  intros replies w.
  pose proof (@request_returns_decoded_2xx_only _ list_codebase
                Api.no_options api w) as (_ & H & _).
  apply (H 404%Z (lit "[]") (inr [])); [reflexivity | lia].
Defined.

(** X3.  [askQuestion] sends a [filter_type] member exactly when the
    caller gave one, with the caller's text; [askModelQuestion] never
    sends one. *)
Theorem filter_type_is_sent_when_given (request_ : QueryRequest.t) (w : World) :
  (exists doc,
     sends (Api.askQuestion request_) w doc /\
     member "filter_type" doc
       = option_map JString (QueryRequest.filter_type request_)) /\
  (exists doc,
     sends (Api.askModelQuestion request_) w doc /\
     member "filter_type" doc = None).
Proof.
  split.
  - eexists. split.
    + unfold sends, Api.askQuestion. eexists.
      rewrite (proj2 (request_verdict _ _ _ _)). split; reflexivity.
    + cbn [Api.init_body]. destruct (QueryRequest.filter_type request_); reflexivity.
  - eexists. split.
    + unfold sends, Api.askModelQuestion. eexists.
      rewrite (proj2 (request_verdict _ _ _ _)). split; reflexivity.
    + reflexivity.
Qed.

(* ================================================================== *)
(** * Further properties: the chat *)
(* ================================================================== *)

Lemma settle_resolved w response :
  settle (Returned response) (ChatMessage.id (placeholder w)) (placeholder w)
  = resolvedPlaceholder w response.
Proof.
  unfold settle. rewrite streq_refl.
  unfold Chat.resolved, resolvedPlaceholder, or_text. cbn.
  destruct (QueryResponse.answer response); reflexivity.
Qed.

(** X4.  When the ask of an accepted submit resolves, the handler
    returns normally and the transcript keeps its length; a message whose
    id is not the placeholder's is as it was dispatched; the placeholder,
    last in the transcript, holds the answer (or [No response received]
    for an empty answer) and the response, and is no longer pending; the
    retrieved context of the response becomes the last one.  When the
    placeholder's id is fresh, the transcript is the old one followed by
    the user message and that resolved placeholder. *)
Theorem resolved_ask_fills_placeholder (w : World) (response : QueryResponse.t) :
  accepted w ->
  askVerdict w = Returned response ->
  let r := Dashboard.send w in
  let after := chatMessages (state (world_of r)) in
  outcome_of r = Returned tt /\
  List.length after = List.length (dispatched w) /\
  (forall i m,
     nth_error (dispatched w) i = Some m ->
     ChatMessage.id m <> ChatMessage.id (placeholder w) ->
     nth_error after i = Some m) /\
  nth_error after (S (List.length (chatMessages (state w))))
    = Some (resolvedPlaceholder w response) /\
  lastRetrievedContext (state (world_of r))
    = QueryResponse.retrieved_context response /\
  ((forall m, In m (chatMessages (state w)) ->
              ChatMessage.id m <> ChatMessage.id (placeholder w)) ->
   reading w 0 <> (reading w 2 + 1)%Z ->
   after = chatMessages (state w)
           ++ [userMessage w; resolvedPlaceholder w response]).
Proof.
  intros A V r after. subst r after.
  rewrite (send_accepted w A).
  cbn [world_of outcome_of fst snd afterSend state chatMessages
       lastRetrievedContext].
  unfold settled. rewrite V.
  split; [reflexivity|]. split; [apply length_map|].
  split; [|split; [|split]].
  - intros i m Hm Hid. rewrite nth_error_map, Hm. cbn [option_map].
    now rewrite settle_other.
  - rewrite nth_error_map. unfold dispatched.
    rewrite nth_error_app2 by lia.
    replace (S (List.length (chatMessages (state w)))
             - List.length (chatMessages (state w))) with 1 by lia.
    cbn [nth_error option_map]. now rewrite settle_resolved.
  - reflexivity.
  - intros Fresh Clock. unfold dispatched. rewrite map_app. f_equal.
    + rewrite <- (map_id (chatMessages (state w))) at 2.
      apply map_ext_in. intros m Hm. apply settle_other. auto.
    + cbn [map]. rewrite settle_resolved, settle_other; [reflexivity|].
      now apply userMessage_id.
Qed.

(** The local backend answers: the placeholder holds the answer. *)
Lemma resolved_ask_instance :
  let w := Sample.page model (lit " what is parseInput? ")
             (Sample.serving [Sample.file]) in
  let after := chatMessages (state (world_of (Dashboard.send w))) in
  map ChatMessage.content after =
    [lit "what is parseInput?"; lit "It parses the input."] /\
  map ChatMessage.isLoading after = [None; Some false] /\
  map ChatMessage.response after = [None; Some Sample.response].
Proof.
  intros w after.
  destruct (@resolved_ask_fills_placeholder w Sample.response)
    as (_ & _ & _ & _ & _ & E).
  - repeat split; reflexivity.
  - reflexivity.
  - subst after. rewrite E.
    + repeat split; reflexivity.
    + intros m [].
    + vm_compute. discriminate.
Defined.

(** The guard stops a submit that is not accepted. *)
Lemma guard_stops w : ~ accepted w -> Dashboard.send w = (Returned tt, w).
Proof.
  intros H.
  unfold Dashboard.send, Chat.handleSendMessage.
  cbn [Dashboard.chatProps Chat.hasFiles].
  destruct (negb (truthy (trim (inputValue (state w))))
            || isLoading (state w) || negb (hasBackendFiles (state w))) eqn:G;
    [reflexivity|].
  exfalso. apply H.
  apply orb_false_iff in G as [G G3].
  apply orb_false_iff in G as [G1 G2].
  apply negb_false_iff in G1, G3.
  repeat split; auto.
  destruct (blank (inputValue (state w))) eqn:B; [|reflexivity].
  apply trim_blank in B. congruence.
Qed.

(** X5.  A submit leaves the world as it is exactly when the guard does
    not let it pass: a submit with a non-blank input, nothing in flight
    and a codebase loaded always sends a request. *)
Theorem submit_is_a_no_op_exactly_when_rejected (w : World) :
  Dashboard.send w = (Returned tt, w) <-> ~ accepted w.
Proof.
  split.
  - intros E A. rewrite (send_accepted w A) in E.
    injection E as E.
    apply (f_equal (fun x => List.length (sent (outside x)))) in E.
    cbn [afterSend outside sent] in E. rewrite length_app in E.
    cbn in E. lia.
  - apply guard_stops.
Qed.

Lemma settle_not_pending v target m :
  ~ pending m -> ~ pending (settle v target m).
Proof.
  unfold settle, pending.
  destruct (streq (ChatMessage.id m) target); [|auto].
  destruct v; cbn; discriminate.
Qed.

(** X6.  Once an accepted submit has run to its end and the save effects
    have followed, whether the ask resolved or failed: nothing is in
    flight, the input box is empty, and a transcript without pending
    messages before has none after.  The file state, the mode, the
    settings and the alerts are as before.  In [localStorage] the saved
    transcript is the new transcript and the saved file list is as
    before. *)
Theorem accepted_submit_leaves_nothing_pending (text : jsstring) (w : World) :
  blank text = false ->
  isLoading (state w) = false ->
  hasBackendFiles (state w) = true ->
  let w' := world_of (Dashboard.submit text w) in
  isLoading (state w') = false /\
  inputValue (state w') = [] /\
  (Forall (fun m => ~ pending m) (chatMessages (state w)) ->
   Forall (fun m => ~ pending m) (chatMessages (state w'))) /\
  hasBackendFiles (state w') = hasBackendFiles (state w) /\
  localFiles (state w') = localFiles (state w) /\
  backendMode (state w') = backendMode (state w) /\
  chatSettings (state w') = chatSettings (state w) /\
  alerts (outside w') = alerts (outside w) /\
  item_chatMessages (localStorage (outside w'))
    = Some (Encoded (chatMessages (state w'))) /\
  item_uploadedFiles (localStorage (outside w'))
    = item_uploadedFiles (localStorage (outside w)).
Proof.
  intros B L F w'. subst w'. rewrite (submit_accepted text w B L F).
  unfold world_of at 1 2 3 4 5 6 7 8 9 10 11. cbn [snd].
  rewrite saved_state.
  assert (P : Forall (fun m => ~ pending m) (chatMessages (state w)) ->
              Forall (fun m => ~ pending m)
                (chatMessages (state (afterSend (typed text w))))).
  { intros G. cbn [afterSend state chatMessages].
    unfold settled, dispatched.
    replace (chatMessages (state (typed text w))) with (chatMessages (state w))
      by (expose w; reflexivity).
    rewrite map_app. apply Forall_app. split.
    - apply Forall_map. eapply Forall_impl; [|exact G].
      intros m. apply settle_not_pending.
    - cbn [map]. constructor; [|constructor; [|constructor]].
      + apply settle_not_pending. unfold pending. cbn. discriminate.
      + unfold settle. rewrite streq_refl.
        unfold pending. destruct (askVerdict (typed text w)); cbn; discriminate. }
  split; [reflexivity|]. split; [reflexivity|]. split; [exact P|].
  clear P. expose w. repeat split; reflexivity.
Qed.

Lemma nothing_pending_instance :
  let w := Sample.page api [] Sample.broken in
  let w' := world_of (Dashboard.submit (lit "what is parseInput?") w) in
  isLoading (state w') = false /\
  inputValue (state w') = [] /\
  Forall (fun m => ~ pending m) (chatMessages (state w')) /\
  option_map (fun i => match i with
                       | Encoded saved => List.length saved
                       | Garbled _ => 0
                       end)
    (item_chatMessages (localStorage (outside w'))) = Some 2.
Proof.
  intros w w'.
  destruct (@accepted_submit_leaves_nothing_pending
              (lit "what is parseInput?") w)
    as (L & I & P & _ & _ & _ & _ & _ & S & _); try reflexivity.
  fold w' in L, I, P, S.
  split; [exact L|]. split; [exact I|]. split; [apply P; constructor|].
  rewrite S. reflexivity.
Defined.

Lemma trimStart_head s c rest :
  trimStart s = c :: rest -> isWhiteSpace c = false.
Proof.
  induction s as [|d s IH]; simpl; [discriminate|].
  destruct (isWhiteSpace d) eqn:E; [exact IH|].
  intros [= <- _]. exact E.
Qed.

(** What [trimEnd] removes is blank. *)
Lemma trimEnd_split s : exists p, s = trimEnd s ++ p /\ blank p = true.
Proof.
  unfold trimEnd.
  destruct (trimStart_split (rev s)) as (p & E & B).
  exists (rev p). split.
  - rewrite <- rev_app_distr, <- E. now rewrite rev_involutive.
  - now rewrite blank_rev.
Qed.

Lemma trim_trimmed s : trimmed (trim s).
Proof.
  unfold trimmed, trim. split.
  - intros c rest E.
    destruct (trimEnd_split (trimStart s)) as (p & Hp & _).
    rewrite E in Hp. cbn in Hp. eapply trimStart_head. exact Hp.
  - intros c front E. unfold trimEnd in E.
    apply (f_equal (@rev _)) in E.
    rewrite rev_involutive, rev_app_distr in E. cbn in E.
    eapply trimStart_head. exact E.
Qed.

(** X7.  The question an accepted submit sends to either backend is the
    input without the white space around it: it is not empty and neither
    starts nor ends with white space. *)
Theorem question_sent_is_trimmed (w : World) :
  accepted w ->
  exists req doc q,
    sent (outside (world_of (Dashboard.send w))) = sent (outside w) ++ [req] /\
    body req = Some doc /\
    askedText doc = Some (JString q) /\
    q = trim (inputValue (state w)) /\
    q <> [] /\
    trimmed q /\
    contains (inputValue (state w)) q.
Proof.
  intros A. rewrite (send_accepted w A).
  cbn [world_of snd afterSend outside sent].
  exists (askRequest w).
  unfold askRequest, question.
  assert (N : trim (inputValue (state w)) <> []).
  { destruct A as (B & _). apply trim_not_blank in B.
    intros E. rewrite E in B. discriminate. }
  assert (C : contains (inputValue (state w)) (trim (inputValue (state w)))).
  { unfold contains, trim.
    destruct (trimStart_split (inputValue (state w))) as (p & E1 & _).
    destruct (trimEnd_split (trimStart (inputValue (state w)))) as (q & E2 & _).
    exists p, q. rewrite <- E2. exact E1. }
  destruct (backendMode (state w)); cbn [body];
    eexists; eexists; (split; [reflexivity|]); (split; [reflexivity|]);
    (split; [reflexivity|]); (split; [reflexivity|]);
    (split; [exact N|]); (split; [apply trim_trimmed | exact C]).
Qed.

Lemma question_sent_instance :
  let w := Sample.page api (lit "  what is parseInput? ") Sample.unreachable in
  exists req doc,
    sent (outside (world_of (Dashboard.send w))) = [req] /\
    body req = Some doc /\
    askedText doc = Some (JString (lit "what is parseInput?")).
Proof.
  intros w.
  destruct (@question_sent_is_trimmed w) as (req & doc & q & S & B & T & Q & _).
  - repeat split; reflexivity.
  - exists req, doc. rewrite Q in T. repeat split; assumption.
Defined.

(** X8.  The user message of an accepted submit comes through the
    resolution untouched exactly when its id is not the placeholder's,
    that is, unless the clock read one millisecond less for the
    placeholder than for the user message.  A clock that does not run
    backwards keeps it. *)
Theorem user_message_survives_resolution (w : World) :
  accepted w ->
  let after := chatMessages (state (world_of (Dashboard.send w))) in
  (nth_error after (List.length (chatMessages (state w))) = Some (userMessage w)
   <-> reading w 0 <> (reading w 2 + 1)%Z) /\
  ((reading w 0 <= reading w 2)%Z ->
   nth_error after (List.length (chatMessages (state w))) = Some (userMessage w)).
Proof.
  intros A after. subst after. rewrite (send_accepted w A).
  cbn [world_of snd afterSend state chatMessages]. unfold settled, dispatched.
  rewrite nth_error_map, nth_error_app2 by lia.
  rewrite Nat.sub_diag. cbn [nth_error option_map].
  assert (K : Some (settle (askVerdict w) (ChatMessage.id (placeholder w))
                      (userMessage w)) = Some (userMessage w)
              <-> reading w 0 <> (reading w 2 + 1)%Z).
  { split.
    - intros [= E] C. unfold settle in E.
      assert (I : ChatMessage.id (userMessage w) = ChatMessage.id (placeholder w)).
      { cbn. now rewrite C. }
      change (toString (reading w 2 + 1))
        with (ChatMessage.id (placeholder w)) in E.
      rewrite (proj2 (streq_eq _ _) I) in E.
      destruct (askVerdict w); apply (f_equal ChatMessage.isLoading) in E;
        discriminate.
    - intros C. rewrite settle_other; [reflexivity|]. now apply userMessage_id. }
  split; [exact K|]. intros M. apply K. lia.
Qed.

(** With a steady clock the user message stays; when the clock steps
    back by one millisecond between the two ids, the user message is
    overwritten together with the placeholder. *)
Lemma user_message_instance :
  let steady := Sample.page api (lit "hello") Sample.unreachable in
  let stepping :=
    {| state := state steady;
       outside :=
         {| clock := fun k => match k with 2 => 999%Z | _ => 1000%Z end;
            ticks := 0;
            answers := Sample.unreachable;
            sent := []; alerts := []; transcripts := [];
            localStorage := Sample.emptyStorage |} |} in
  nth_error (chatMessages (state (world_of (Dashboard.send steady)))) 0
    = Some (userMessage steady) /\
  nth_error (chatMessages (state (world_of (Dashboard.send stepping)))) 0
    <> Some (userMessage stepping) /\
  map ChatMessage.content
      (chatMessages (state (world_of (Dashboard.send stepping))))
    = [lit "Error: Failed to fetch"; lit "Error: Failed to fetch"].
Proof.
  intros steady stepping.
  destruct (@user_message_survives_resolution steady) as (_ & K).
  { repeat split; reflexivity. }
  destruct (@user_message_survives_resolution stepping) as (I & _).
  { repeat split; reflexivity. }
  split; [|split].
  - apply K. vm_compute. discriminate.
  - intros E. apply I in E. apply E. reflexivity.
  - reflexivity.
Defined.

(** X9.  Under the local mode, asking for a chunk diagram sends one POST
    to the local backend's [/generate_chunk_diagram] with the chunk under
    [chunk] and changes nothing else.  It never throws: it returns the
    diagram the server sent, or, on any failure, an error diagram naming
    the chunk's function, or its source when it has no function name. *)
Theorem local_chunk_diagram_never_fails (props : Chat.Props) (w : World)
  (chunk : CodeChunk.t) :
  Chat.backendMode props = model ->
  let r := Chat.generateMermaidForChunk props chunk w in
  sent (outside (world_of r)) =
    sent (outside w) ++
    [localPost (lit "/generate_chunk_diagram")
       (JObject [("chunk"%string, Api.chunk_json chunk)])] /\
  onlySent w (world_of r) /\
  match verdict (nextReply generate_chunk_diagram w) with
  | Returned response =>
      outcome_of r = Returned (DiagramResponse.mermaid_syntax response)
  | Threw _ =>
      outcome_of r =
        Returned
          (lit "graph TD" ++ LF ++
           lit "    A[Error generating diagram for " ++
           match CodeChunk.function_name chunk with
           | Some (c :: name) => c :: name
           | _ => CodeChunk.source chunk
           end ++ lit "]" ++ LF ++
           lit "    A --> B[Check console for details]")
  end.
Proof.
  intros M r. subst r.
  unfold Chat.generateMermaidForChunk. rewrite M.
  unfold nextReply, verdict, onlySent, Chat.errorDiagram, Chat.named.
  expose w.
  lazy beta iota zeta delta
    [bind ret throw try_catch fetch Api.request Api.generateChunkDiagram
     Api.getBaseUrl Api.init_method Api.init_body negb world_of outcome_of
     state outside clock ticks answers sent alerts transcripts localStorage
     fst snd].
  destruct (answers0 _ generate_chunk_diagram (List.length sent0))
    as [reason|st tx [err|v]].
  - destruct (CodeChunk.function_name chunk) as [[|c name]|];
      repeat split; reflexivity.
  - destruct (ok st);
      destruct (CodeChunk.function_name chunk) as [[|c name]|];
      repeat split; reflexivity.
  - destruct (ok st);
      destruct (CodeChunk.function_name chunk) as [[|c name]|];
      repeat split; reflexivity.
Qed.

(** The local backend is down: the error diagram names [parseInput]. *)
Lemma local_chunk_diagram_instance :
  let w := Sample.page model [] Sample.unreachable in
  outcome_of (Dashboard.viewChunkDiagram Sample.chunk w) =
    Returned
      (lit "graph TD" ++ LF ++
       lit "    A[Error generating diagram for parseInput]" ++ LF ++
       lit "    A --> B[Check console for details]").
Proof.
  intros w.
  pose proof (@local_chunk_diagram_never_fails
                (Dashboard.chatProps (state w)) w Sample.chunk eq_refl)
    as (_ & _ & H).
  exact H.
Defined.

Lemma flowchart_not_generic name : Chat.flowchart name <> Chat.genericDiagram.
Proof. unfold Chat.flowchart, Chat.genericDiagram. cbn. discriminate. Qed.

Lemma classDiagram_not_generic : Chat.classDiagram <> Chat.genericDiagram.
Proof. unfold Chat.classDiagram, Chat.genericDiagram. cbn. discriminate. Qed.

(** X10.  Under the primary mode, the generic stub is what a chunk
    without the [View Diagram] button would get: for a chunk that shows
    the button the diagram is the flowchart or the class skeleton, never
    the generic stub, and for one that does not show it the diagram is
    the generic stub. *)
Theorem diagram_button_never_leads_to_stub (props : Chat.Props) (w : World)
  (chunk : CodeChunk.t) :
  Chat.backendMode props = api ->
  (Chat.showsDiagramButton chunk = true <->
   outcome_of (Chat.generateMermaidForChunk props chunk w)
     <> Returned Chat.genericDiagram).
Proof.
  intros M. unfold Chat.generateMermaidForChunk, Chat.showsDiagramButton.
  rewrite M.
  assert (I : forall a b : jsstring,
            @Returned jsstring a = Returned b -> a = b).
  { intros a b E. now injection E. }
  unfold outcome_of, ret.
  destruct (Chat.named (CodeChunk.function_name chunk)) as [name|].
  - cbn [fst]. split; [|reflexivity].
    intros _ E. exact (flowchart_not_generic _ (I _ _ E)).
  - destruct (streq (CodeChunk.type chunk) (lit "class")
              || includes (CodeChunk.content chunk) (lit "class ")
              || includes (CodeChunk.content chunk) (lit "struct "));
      cbn [fst].
    + split; [|reflexivity].
      intros _ E. exact (classDiagram_not_generic (I _ _ E)).
    + split; [discriminate|]. intros H. exfalso. apply H. reflexivity.
Qed.

Lemma diagram_button_instance :
  let w := Sample.page api [] Sample.unreachable in
  outcome_of (Dashboard.viewChunkDiagram Sample.chunk w)
    <> Returned Chat.genericDiagram /\
  Chat.showsDiagramButton Sample.chunk = true.
Proof.
  intros w. split; [|reflexivity].
  apply (@diagram_button_never_leads_to_stub
           (Dashboard.chatProps (state w)) w Sample.chunk eq_refl).
  reflexivity.
Defined.

(** X11.  A key press changes the world only when the key is Enter, Shift
    is not held, the input is not blank, nothing is in flight and a
    codebase is loaded; the default action of the key is prevented
    exactly for Enter without Shift. *)
Theorem key_press_sends_on_plain_enter_only (props : Chat.Props)
  (inputValue : jsstring) (isLoading : bool) (e : Chat.KeyboardEvent)
  (w : World) :
  let r := Chat.handleKeyPress props inputValue isLoading e w in
  (world_of r <> w ->
   Chat.key e = lit "Enter" /\ Chat.shiftKey e = false /\
   blank inputValue = false /\ isLoading = false /\
   Chat.hasFiles props = true) /\
  (outcome_of r = Returned true <->
   Chat.key e = lit "Enter" /\ Chat.shiftKey e = false) /\
  (outcome_of r = Returned true \/ outcome_of r = Returned false).
Proof.
  intros r. subst r. unfold Chat.handleKeyPress.
  destruct (streq (Chat.key e) (lit "Enter")) eqn:K;
    destruct (Chat.shiftKey e) eqn:S; cbn [andb negb].
  - split; [intros H; now exfalso|]. split; [|now right].
    split; [discriminate | intros (_ & [=])].
  - apply streq_eq in K.
    split; [|split; [split; auto|now left]].
    cbn [world_of snd]. unfold Chat.handleSendMessage.
    destruct (blank inputValue) eqn:B.
    { apply trim_blank in B. rewrite B. intros H. now exfalso. }
    destruct isLoading.
    { rewrite orb_true_r. intros H. now exfalso. }
    destruct (Chat.hasFiles props).
    { auto. }
    rewrite orb_true_r. intros H. now exfalso.
  - split; [intros H; now exfalso|]. split; [|now right].
    split; [discriminate|]. intros (E & _).
    apply streq_eq in E. congruence.
  - split; [intros H; now exfalso|]. split; [|now right].
    split; [discriminate|]. intros (E & _).
    apply streq_eq in E. congruence.
Qed.

Lemma key_press_instance :
  let w := Sample.page api (lit "hello") Sample.unreachable in
  let press k shift :=
    Chat.handleKeyPress (Dashboard.chatProps (state w)) (lit "hello") false
      {| Chat.key := lit k; Chat.shiftKey := shift |} w in
  outcome_of (press "Enter"%string false) = Returned true /\
  outcome_of (press "Enter"%string true) = Returned false /\
  world_of (press "Enter"%string true) = w /\
  world_of (press "a"%string false) = w /\
  List.length (sent (outside (world_of (press "Enter"%string false)))) = 1.
Proof.
  intros w press.
  pose proof (@key_press_sends_on_plain_enter_only
                (Dashboard.chatProps (state w)) (lit "hello") false
                {| Chat.key := lit "Enter"; Chat.shiftKey := false |} w)
    as (_ & H & _).
  split; [apply H; split; reflexivity|].
  repeat split; reflexivity.
Defined.

(* ================================================================== *)
(** * Further properties: the dashboard *)
(* ================================================================== *)

Lemma nonempty_length {A} (l : list A) : (0 <? List.length l) = true <-> l <> [].
Proof.
  destruct l; cbn; split; try discriminate; try reflexivity.
  intros H. now exfalso.
Qed.

(** X12.  [checkLocalFiles] sends one GET to the primary backend's
    [/list_codebase] and always ends with [loading] off, without alert.
    When the listing arrives, the file list is the listing, the flag
    tells whether it is non-empty, and the listing is mirrored in the
    storage.  When the listing fails, the storage is left alone: a cached
    list becomes the file list, with the flag telling whether it is
    non-empty; with no cache (or an empty text) list and flag stay as
    they were; and a cache that is not JSON makes the function throw,
    list and flag staying as they were. *)
Theorem refresh_mirrors_server_or_cache (w : World) :
  let r := Dashboard.checkLocalFiles w in
  let w' := world_of r in
  loading (state w') = false /\
  sent (outside w') = sent (outside w) ++ [primaryGet (lit "/list_codebase")] /\
  alerts (outside w') = alerts (outside w) /\
  chatMessages (state w') = chatMessages (state w) /\
  match verdict (nextReply list_codebase w) with
  | Returned files =>
      outcome_of r = Returned tt /\
      localFiles (state w') = files /\
      (hasBackendFiles (state w') = true <-> files <> []) /\
      item_uploadedFiles (localStorage (outside w')) = Some (Encoded files)
  | Threw _ =>
      localStorage (outside w') = localStorage (outside w) /\
      match item_uploadedFiles (localStorage (outside w)) with
      | Some (Encoded cached) =>
          outcome_of r = Returned tt /\
          localFiles (state w') = cached /\
          (hasBackendFiles (state w') = true <-> cached <> [])
      | Some (Garbled (_ :: _)) =>
          outcome_of r = Threw (Error (lit "Unexpected token in JSON")) /\
          localFiles (state w') = localFiles (state w) /\
          hasBackendFiles (state w') = hasBackendFiles (state w)
      | _ =>
          outcome_of r = Returned tt /\
          localFiles (state w') = localFiles (state w) /\
          hasBackendFiles (state w') = hasBackendFiles (state w)
      end
  end.
Proof.
  unfold Dashboard.checkLocalFiles, nextReply, verdict, primaryGet.
  expose w. destruct localStorage0 as [im ic iu]. exec.
  destruct (answers0 _ list_codebase (List.length sent0)) as [r|st tx [e|v]];
    exec; try destruct (ok st);
    try (repeat split; solve [reflexivity | apply nonempty_length]);
    destruct iu as [[cached|[|c raw]]|];
    repeat split; solve [reflexivity | apply nonempty_length].
Qed.

(** The backend is down and two files are cached. *)
Lemma refresh_instance :
  let cache :=
    {| item_chatMessages := None; item_chatSettings := None;
       item_uploadedFiles := Some (Encoded [Sample.file; Sample.file]) |} in
  let w := Dashboard.start api (Sample.surroundings Sample.unreachable cache) in
  let w' := world_of (Dashboard.checkLocalFiles w) in
  localFiles (state w') = [Sample.file; Sample.file] /\
  hasBackendFiles (state w') = true /\
  loading (state w') = false.
Proof.
  intros cache w w'.
  pose proof (@refresh_mirrors_server_or_cache w) as (L & _ & _ & _ & _ & _ & F & H).
  split; [exact F|]. split; [|exact L].
  apply H. discriminate.
Defined.

(** X14.  After a clear that succeeded, a submit of any text is a no-op,
    until files are listed again: the flag the guard reads is off. *)
Theorem cleared_page_rejects_submits (w : World) (text : jsstring) (ack : jsstring) :
  verdict (nextReply clear_codebase w) = Returned ack ->
  let cleared := world_of (Dashboard.handleClearBackendFiles w) in
  Dashboard.send (typed text cleared) = (Returned tt, typed text cleared).
Proof.
  intros V cleared. apply guard_stops. intros (_ & _ & F).
  assert (H : hasBackendFiles (state cleared) = false).
  { subst cleared. revert V.
    unfold Dashboard.handleClearBackendFiles, nextReply, verdict.
    expose w. exec.
    destruct (answers0 _ clear_codebase (List.length sent0)) as [r|st tx [e|v]];
      try discriminate; exec; destruct (ok st); try discriminate.
    reflexivity. }
  unfold typed in F. revert F H. expose cleared. exec. congruence.
Qed.

Lemma cleared_page_instance :
  let w := Sample.page api [] (Sample.serving [Sample.file]) in
  let cleared := world_of (Dashboard.handleClearBackendFiles w) in
  sent (outside (world_of (Dashboard.send (typed (lit "hello") cleared))))
    = sent (outside cleared).
Proof.
  intros w cleared.
  pose proof (@cleared_page_rejects_submits w (lit "hello") (lit "cleared")
                eq_refl) as E.
  cbv zeta in E. fold cleared in E. rewrite E. reflexivity.
Defined.

(** X15.  [checkBackendStatus] sends one GET to the primary backend's
    [/health] and changes nothing else of the page.  The status becomes
    [connected] exactly when the reply has a status from 200 to 299 and a
    JSON body, and [disconnected] otherwise; it is never left at
    [checking]. *)
Theorem status_follows_health_check (sh : Shell.t) :
  let sh' := Shell.checkBackendStatus sh in
  sendsOnly Api.checkHealth (Shell.page sh) (primaryGet (lit "/health")) /\
  Shell.page sh' = world_of (Api.checkHealth (Shell.page sh)) /\
  Shell.item_backendMode sh' = Shell.item_backendMode sh /\
  (Shell.backendStatus sh' = Shell.connected <->
   exists status text ack,
     nextReply health (Shell.page sh) = Responds status text (inr ack) /\
     (200 <= status <= 299)%Z) /\
  (Shell.backendStatus sh' <> Shell.connected ->
   Shell.backendStatus sh' = Shell.disconnected).
Proof.
  intros sh'. subst sh'. unfold Shell.checkBackendStatus.
  split; [apply request_sendsOnly|].
  pose proof (request_verdict health Api.no_options api (Shell.page sh)) as (V & _).
  unfold Api.checkHealth.
  destruct (Api.request health Api.no_options api (Shell.page sh)) as [[v|e] w'];
    cbn [outcome_of fst world_of snd Shell.page Shell.backendStatus
         Shell.item_backendMode] in *.
  - repeat split; try reflexivity.
    + intros _. unfold verdict in V.
      destruct (nextReply health (Shell.page sh)) as [r|st tx [err|v0]];
        try discriminate.
      * destruct (ok st); discriminate.
      * destruct (ok st) eqn:O; [|discriminate].
        exists st, tx, v0. split; [reflexivity | now apply ok_range].
    + intros H. now exfalso.
  - repeat split; try reflexivity.
    + discriminate.
    + intros (st & tx & ack & R & O). rewrite R in V. unfold verdict in V.
      apply ok_range in O. rewrite O in V. discriminate.
Qed.

Lemma status_instance :
  let shell replies :=
    {| Shell.page := Sample.page model [] replies;
       Shell.backendStatus := Shell.checking;
       Shell.item_backendMode := Some (lit "model") |} in
  Shell.backendStatus (Shell.checkBackendStatus (shell (Sample.serving [])))
    = Shell.connected /\
  Shell.backendStatus (Shell.checkBackendStatus (shell Sample.broken))
    = Shell.disconnected.
Proof.
  intros shell. split.
  - apply (@status_follows_health_check (shell (Sample.serving []))).
    exists 200%Z, [], (lit "ok"). split; [reflexivity | lia].
  - apply (@status_follows_health_check (shell Sample.broken)).
    intros E. apply (@status_follows_health_check (shell Sample.broken)) in E.
    destruct E as (st & tx & ack & [=] & _).
Defined.


(* ================================================================== *)
(** * Further properties: the file upload *)
(* ================================================================== *)

Lemma canonicalize_dot c : Upload.canonicalize c = 46%N -> c = 46%N.
Proof.
  unfold Upload.canonicalize.
  destruct ((97 <=? c) && (c <=? 122))%N eqn:E; [|auto].
  apply andb_true_iff in E as [E1 E2].
  apply N.leb_le in E1, E2. lia.
Qed.

(** A suffix test in terms of a split of the string. *)
Lemma endsWithIgnoringCase_spec s suffix :
  Upload.endsWithIgnoringCase s suffix = true <->
  exists stem tail,
    s = stem ++ tail /\
    map Upload.canonicalize tail = map Upload.canonicalize suffix.
Proof.
  unfold Upload.endsWithIgnoringCase. rewrite startsWith_spec. split.
  - intros (post & E).
    exists (rev (skipn (List.length suffix) (rev s))),
           (rev (firstn (List.length suffix) (rev s))).
    split.
    + rewrite <- rev_app_distr, firstn_skipn. now rewrite rev_involutive.
    + rewrite map_rev, <- firstn_map, E.
      rewrite firstn_app, length_map, length_rev, Nat.sub_diag.
      cbn [firstn]. rewrite app_nil_r.
      rewrite firstn_all2 by (rewrite length_map, length_rev; lia).
      now rewrite <- map_rev, rev_involutive.
  - intros (stem & tail & -> & E).
    exists (map Upload.canonicalize (rev stem)).
    rewrite rev_app_distr, map_app, !map_rev. now rewrite E.
Qed.

Lemma allowedExtensions_supported (name : jsstring) :
  Upload.allowedExtensions name = true <-> supported name.
Proof.
  unfold Upload.allowedExtensions, supported, spelled.
  rewrite existsb_exists. split.
  - intros (ext & I & E). apply endsWithIgnoringCase_spec in E.
    destruct E as (stem & tail & -> & E).
    destruct tail as [|d tail]; [discriminate|].
    cbn in E. injection E as D E.
    apply canonicalize_dot in D. subst d.
    exists stem, ext, tail. repeat split; assumption.
  - intros (stem & ext & suffix & I & E & ->).
    exists ext. split; [exact I|].
    apply endsWithIgnoringCase_spec.
    exists stem, (lit "." ++ suffix). split; [reflexivity|].
    cbn. now rewrite E.
Qed.

(** Under the flag [i] a code unit matches a lower-case letter of the
    pattern exactly when it is that letter or its capital. *)
Lemma canonicalize_letter c p :
  (97 <= p <= 122)%N ->
  Upload.canonicalize c = Upload.canonicalize p <-> letterOf c p.
Proof.
  intros R. unfold letterOf, Upload.canonicalize.
  destruct ((97 <=? p) && (p <=? 122))%N eqn:P.
  2: { apply andb_false_iff in P as [P | P]; apply N.leb_gt in P; lia. }
  destruct ((97 <=? c) && (c <=? 122))%N eqn:C.
  - apply andb_true_iff in C as [C1 C2]. apply N.leb_le in C1, C2. lia.
  - apply andb_false_iff in C as [C | C]; apply N.leb_gt in C; lia.
Qed.

Lemma canonicalize_letters s p :
  Forall (fun c => (97 <= c <= 122)%N) p ->
  map Upload.canonicalize s = map Upload.canonicalize p <->
  Forall2 letterOf s p.
Proof.
  intros R. revert s.
  induction R as [|c p Rc R IH]; intros [|d s]; cbn [map].
  - split; [constructor | reflexivity].
  - split; [discriminate | intros H; inversion H].
  - split; [discriminate | intros H; inversion H].
  - split.
    + intros [= E1 E2]. constructor.
      * now apply canonicalize_letter.
      * now apply IH.
    + intros H. inversion H as [|? ? ? ? L1 L2]; subst.
      apply (canonicalize_letter d c Rc) in L1. apply IH in L2.
      now rewrite L1, L2.
Qed.

(** The extensions of the pattern are written in lower-case letters. *)
Lemma extensions_lower ext :
  In ext Upload.extensions ->
  Forall (fun c => (97 <= c <= 122)%N) (lit ext).
Proof.
  intros I.
  assert (E : forallb (fun ext =>
                forallb (fun c => (97 <=? c) && (c <=? 122))%N (lit ext))
              Upload.extensions = true) by reflexivity.
  rewrite forallb_forall in E. specialize (E ext I).
  rewrite forallb_forall in E. apply Forall_forall. intros c Hc.
  specialize (E c Hc). apply andb_true_iff in E as [E1 E2].
  apply N.leb_le in E1, E2. lia.
Qed.

(** X17.  The pattern accepts a name exactly when the name ends in a dot
    (code unit 46) followed by one of c, cpp, h, hpp, py, java, js, ts,
    tsx, cs, go, php, rb, swift, zip, each letter of the extension in
    either case. *)
Theorem allowed_names_end_in_an_extension (name : jsstring) :
  Upload.allowedExtensions name = true <-> endsInExtension name.
Proof.
  rewrite allowedExtensions_supported. unfold supported, spelled, endsInExtension.
  split.
  - intros (stem & ext & suffix & I & E & ->).
    exists stem, ext, suffix. split; [exact I|]. split; [|reflexivity].
    apply canonicalize_letters; [now apply extensions_lower | exact E].
  - intros (stem & ext & suffix & I & E & ->).
    exists stem, ext, suffix. split; [exact I|]. split; [|reflexivity].
    apply canonicalize_letters; [now apply extensions_lower | exact E].
Qed.

(** [Parser.CPP] is accepted, being the stem [Parser], a dot, and [cpp]
    in capitals; [notes.txt] ends in no extension of the list. *)
Lemma allowed_names_instance :
  Upload.allowedExtensions (lit "Parser.CPP") = true /\
  ~ endsInExtension (lit "notes.txt").
Proof.
  split.
  - apply (proj2 (allowed_names_end_in_an_extension (lit "Parser.CPP"))).
    exists (lit "Parser"), "cpp"%string, (lit "CPP").
    split; [cbn; tauto|]. split; [|reflexivity].
    repeat constructor; cbn; lia.
  - intros H.
    apply (proj2 (allowed_names_end_in_an_extension (lit "notes.txt"))) in H.
    discriminate H.
Defined.

(** Names as users give them. *)
Example allowed_names_examples :
  Upload.allowedExtensions (lit "main.c") = true /\
  Upload.allowedExtensions (lit "Parser.CPP") = true /\
  Upload.allowedExtensions (lit "src/app.Tsx") = true /\
  Upload.allowedExtensions (lit "project.zip") = true /\
  Upload.allowedExtensions (lit ".h") = true /\
  Upload.allowedExtensions (lit "Makefile") = false /\
  Upload.allowedExtensions (lit "notes.txt") = false /\
  Upload.allowedExtensions (lit "main.c.bak") = false /\
  Upload.allowedExtensions (lit "main.c ") = false /\
  Upload.allowedExtensions (lit "mainc") = false /\
  Upload.allowedExtensions [] = false.
Proof. repeat split; reflexivity. Qed.

Section UploadHandlers.

Variable File : Type.
Variable name : File -> jsstring.
Variable onFilesUploaded : list File -> Run unit.

Lemma kept_supported files file :
  In file (kept name files) <-> In file files /\ supported (name file).
Proof.
  unfold kept. rewrite filter_In, allowedExtensions_supported. tauto.
Qed.

(** X18.  A drop always ends with the drop zone neither dragging nor
    processing.  When no dropped file has a supported name, the prop
    [onFilesUploaded] is not run (the world is as before) and the error
    asks for supported files.  Otherwise the prop is run once, on the
    supported files in the order dropped, and the error is empty when it
    returns and the thrown message (or [Upload failed]) when it throws. *)
Theorem drop_uploads_supported_files (files : list File) (u : Upload.State)
  (w : World) :
  let r := Upload.handleDrop name onFilesUploaded files u w in
  Upload.isDragging (fst r) = false /\
  Upload.isProcessing (fst r) = false /\
  (forall file, In file (kept name files) <-> In file files /\ supported (name file)) /\
  match kept name files with
  | [] => snd r = w /\ Upload.error (fst r) = Upload.unsupported
  | _ :: _ =>
      snd r = world_of (onFilesUploaded (kept name files) w) /\
      Upload.error (fst r) =
        match outcome_of (onFilesUploaded (kept name files) w) with
        | Returned _ => []
        | Threw (Error message) => message
        | Threw NotAnError => lit "Upload failed"
        end
  end.
Proof.
  intros r. subst r. unfold Upload.handleDrop, Upload.upload.
  fold (kept name files).
  split; [|split; [|split; [apply kept_supported|]]].
  - destruct (kept name files) as [|f rest]; cbn [List.length Nat.ltb Nat.leb].
    + reflexivity.
    + destruct (onFilesUploaded (f :: rest) w) as [[[]|e] w']; reflexivity.
  - destruct (kept name files) as [|f rest]; cbn [List.length Nat.ltb Nat.leb].
    + reflexivity.
    + destruct (onFilesUploaded (f :: rest) w) as [[[]|e] w']; reflexivity.
  - destruct (kept name files) as [|f rest]; cbn [List.length Nat.ltb Nat.leb].
    + split; reflexivity.
    + destruct (onFilesUploaded (f :: rest) w) as [[[]|[m|]] w'];
        split; reflexivity.
Qed.

(** X19.  A selection in the file dialog with no supported name leaves
    the world and the processing flag as they were and sets the error
    that asks for supported files.  Otherwise the prop [onFilesUploaded]
    is run once, on the supported files in the order selected; processing
    ends, and the error is empty when the prop returns and the thrown
    message (or [Upload failed]) when it throws.  The dragging flag is
    never touched. *)
Theorem selection_uploads_supported_files (files : list File)
  (u : Upload.State) (w : World) :
  let r := Upload.handleFileSelect name onFilesUploaded files u w in
  Upload.isDragging (fst r) = Upload.isDragging u /\
  match kept name files with
  | [] =>
      snd r = w /\
      Upload.isProcessing (fst r) = Upload.isProcessing u /\
      Upload.error (fst r) = Upload.unsupported
  | _ :: _ =>
      snd r = world_of (onFilesUploaded (kept name files) w) /\
      Upload.isProcessing (fst r) = false /\
      Upload.error (fst r) =
        match outcome_of (onFilesUploaded (kept name files) w) with
        | Returned _ => []
        | Threw (Error message) => message
        | Threw NotAnError => lit "Upload failed"
        end
  end.
Proof.
  intros r. subst r. unfold Upload.handleFileSelect, Upload.upload.
  fold (kept name files).
  destruct (kept name files) as [|f rest]; cbn [List.length Nat.ltb Nat.leb].
  - repeat split; reflexivity.
  - destruct (onFilesUploaded (f :: rest) w) as [[[]|[m|]] w'];
      repeat split; reflexivity.
Qed.

End UploadHandlers.

(** Three files dropped on a page whose upload fails: the two supported
    ones are handed over, and the failure is shown. *)
Lemma drop_instance :
  let failing (files : list jsstring) : Run unit :=
    if Nat.eqb (List.length files) 2
    then throw (Error (lit "Upload failed: disk full"))
    else ret tt in
  let w := Sample.page api [] Sample.unreachable in
  let u := {| Upload.isDragging := true; Upload.isProcessing := true;
              Upload.error := lit "old" |} in
  let r := Upload.handleDrop (fun file => file) failing
             [lit "main.c"; lit "README.md"; lit "util.H"] u w in
  Upload.isDragging (fst r) = false /\
  Upload.isProcessing (fst r) = false /\
  Upload.error (fst r) = lit "Upload failed: disk full" /\
  kept (fun file => file) [lit "main.c"; lit "README.md"; lit "util.H"]
    = [lit "main.c"; lit "util.H"].
Proof.
  intros failing w u r.
  pose proof (@drop_uploads_supported_files jsstring (fun file => file) failing
                [lit "main.c"; lit "README.md"; lit "util.H"] u w)
    as (D & P & _ & _).
  split; [exact D|]. split; [exact P|]. split; reflexivity.
Defined.

Lemma selection_instance :
  let w := Sample.page api [] Sample.unreachable in
  let u := {| Upload.isDragging := false; Upload.isProcessing := false;
              Upload.error := [] |} in
  let r := Upload.handleFileSelect (fun file => file) (fun _ => ret tt)
             [lit "README.md"; lit "Makefile"] u w in
  Upload.isDragging (fst r) = false /\
  Upload.error (fst r) =
    lit "Please upload supported code files or a zip archive." /\
  snd r = w.
Proof.
  intros w u r.
  pose proof (@selection_uploads_supported_files jsstring (fun file => file)
                (fun _ => ret tt) [lit "README.md"; lit "Makefile"] u w)
    as (D & _).
  split; [exact D|]. split; reflexivity.
Defined.

(* ================================================================== *)
(** * Further properties: any sequence of submits *)
(* ================================================================== *)

Lemma sameShape_refl l : sameShape l l.
Proof. unfold sameShape. induction l; constructor; auto. Qed.

Lemma sameShape_trans a b c : sameShape a b -> sameShape b c -> sameShape a c.
Proof.
  unfold sameShape. intros H. revert c.
  induction H as [|x y a b (I & T & S) _ IH]; intros c Hc.
  - inversion Hc. constructor.
  - inversion Hc as [|y' z b' c' (I' & T' & S') Hc']; subst.
    constructor; [repeat split; congruence | auto].
Qed.

Lemma typed_guard text w :
  inputValue (state (typed text w)) = text /\
  isLoading (state (typed text w)) = isLoading (state w) /\
  hasBackendFiles (state (typed text w)) = hasBackendFiles (state w).
Proof. expose w. repeat split; reflexivity. Qed.

Lemma submit_rejected text w :
  ~ accepted (typed text w) ->
  Dashboard.submit text w = (Returned tt, saved (typed text w)).
Proof.
  intros N. unfold Dashboard.submit, bind at 1.
  change (setInputValue text w) with (Returned tt, typed text w).
  cbv beta iota. unfold try_finally. rewrite (guard_stops _ N).
  unfold saved. expose w. reflexivity.
Qed.

(** One submit of any text, run to its end with the save effects. *)
Lemma submit_any text w :
  Dashboard.submit text w = (Returned tt, saved (afterSend (typed text w))) \/
  Dashboard.submit text w = (Returned tt, saved (typed text w)).
Proof.
  destruct (typed_guard text w) as (I & L & F).
  destruct (blank text) eqn:B.
  { right. apply submit_rejected. intros (B' & _). congruence. }
  destruct (isLoading (state w)) eqn:L0.
  { right. apply submit_rejected. intros (_ & L' & _). congruence. }
  destruct (hasBackendFiles (state w)) eqn:F0.
  { left. now apply submit_accepted. }
  right. apply submit_rejected. intros (_ & _ & F'). congruence.
Qed.

(** What one submit of any text keeps. *)
Lemma submit_extends text w :
  let w' := world_of (Dashboard.submit text w) in
  outcome_of (Dashboard.submit text w) = Returned tt /\
  (exists front tail,
     chatMessages (state w') = front ++ tail /\
     sameShape (chatMessages (state w)) front /\
     List.length tail <= 2) /\
  (exists added,
     queryHistory (state w') = queryHistory (state w) ++ added /\
     List.length added <= 1) /\
  hasBackendFiles (state w') = hasBackendFiles (state w) /\
  backendMode (state w') = backendMode (state w) /\
  chatSettings (state w') = chatSettings (state w).
Proof.
  intros w'. subst w'.
  destruct (submit_any text w) as [E | E]; rewrite E;
    cbn [world_of outcome_of fst snd]; rewrite saved_state.
  - split; [reflexivity|]. split; [|split].
    + cbn [afterSend state chatMessages]. unfold settled, dispatched.
      rewrite map_app. eexists. eexists. split; [reflexivity|]. split.
      * apply sameShape_settle.
      * cbn. lia.
    + cbn [afterSend state queryHistory].
      destruct (askVerdict (typed text w)).
      * eexists. split; [reflexivity|]. cbn. lia.
      * exists []. rewrite app_nil_r. split; [reflexivity|]. cbn. lia.
    + repeat split; reflexivity.
  - split; [reflexivity|]. split; [|split].
    + exists (chatMessages (state w)), []. rewrite app_nil_r.
      split; [reflexivity|]. split; [apply sameShape_refl | cbn; lia].
    + exists []. rewrite app_nil_r. split; [reflexivity|]. cbn. lia.
    + repeat split; reflexivity.
Qed.

(** X20.  Submits of any texts, blank or not, from any page, each run to
    its end before the next: none throws; the transcript is only ever
    extended, the messages it had keeping their place, id, role and
    time, with at most two new messages per submit; the query history is
    only appended to, by at most one entry per submit; and the file flag,
    the mode and the settings are never changed. *)
Theorem submits_only_extend (texts : list jsstring) (w : World) :
  let r := Dashboard.submits texts w in
  let w' := world_of r in
  outcome_of r = Returned tt /\
  (exists front tail,
     chatMessages (state w') = front ++ tail /\
     sameShape (chatMessages (state w)) front /\
     List.length tail <= 2 * List.length texts) /\
  (exists added,
     queryHistory (state w') = queryHistory (state w) ++ added /\
     List.length added <= List.length texts) /\
  hasBackendFiles (state w') = hasBackendFiles (state w) /\
  backendMode (state w') = backendMode (state w) /\
  chatSettings (state w') = chatSettings (state w).
Proof.
  revert w. induction texts as [|text texts IH]; intros w r w'; subst r w'.
  - cbn. split; [reflexivity|]. split; [|split].
    + exists (chatMessages (state w)), []. rewrite app_nil_r.
      split; [reflexivity|]. split; [apply sameShape_refl | cbn; lia].
    + exists []. rewrite app_nil_r. split; [reflexivity | cbn; lia].
    + repeat split; reflexivity.
  - destruct (submit_extends text w)
      as (O & (f1 & t1 & C1 & S1 & L1) & (a1 & Q1 & N1) & F1 & M1 & G1).
    assert (E : Dashboard.submits (text :: texts) w =
                Dashboard.submits texts (world_of (Dashboard.submit text w))).
    { cbn [Dashboard.submits]. unfold bind at 1, try_catch.
      destruct (Dashboard.submit text w) as [[[]|e] w1]; [reflexivity|].
      discriminate. }
    rewrite E.
    set (w1 := world_of (Dashboard.submit text w)) in *.
    destruct (IH w1)
      as (O2 & (f2 & t2 & C2 & S2 & L2) & (a2 & Q2 & N2) & F2 & M2 & G2).
    split; [exact O2|]. split; [|split].
    + rewrite C1 in S2. unfold sameShape in S2.
      apply Forall2_app_inv_l in S2 as (g1 & g2 & Sg1 & Sg2 & ->).
      exists g1, (g2 ++ t2). split; [|split].
      * rewrite C2. now rewrite app_assoc.
      * exact (sameShape_trans _ _ _ S1 Sg1).
      * rewrite length_app, <- (Forall2_length Sg2). cbn [List.length]. lia.
    + exists (a1 ++ a2). split.
      * rewrite Q2, Q1. now rewrite app_assoc.
      * rewrite length_app. cbn [List.length]. lia.
    + repeat split; congruence.
Qed.

(** A blank text, a question the backend answers, another question: four
    messages, two entries in the history. *)
Lemma submits_any_instance :
  let w := Sample.page model [] (Sample.serving [Sample.file]) in
  let w' := world_of (Dashboard.submits
                        [lit "  "; lit "what is parseInput?"; lit "and main?"] w) in
  List.length (chatMessages (state w')) = 4 /\
  List.length (queryHistory (state w')) = 2 /\
  chatSettings (state w') = Sample.settings.
Proof.
  intros w w'.
  pose proof (@submits_only_extend
                [lit "  "; lit "what is parseInput?"; lit "and main?"] w)
    as (_ & _ & _ & _ & _ & G).
  split; [reflexivity|]. split; [reflexivity|]. exact G.
Defined.
